(** * WalletAdapterSigner: the GMX signer adapter of eth_defi

    A shallow embedding of [eth_defi/gmx/wallet_adapter_signer.py].

    The adapter dispatches on the class of the wallet it wraps
    ([HotWallet], [Web3ProviderWallet], any other [BaseWallet]) and on the
    presence of a ["nonce"] key in the transaction dict it is handed.
    Everything it calls outside its own file (the account's signer, the
    wallet's own methods, the web3 client, the byte conversions of
    hexbytes / web3 / eth_account) is a field of [Collaborators]; the
    adapter's three methods are computations in a state-and-exception
    monad over the wallet object, the caller's transaction dict and the
    list of outside calls made so far. *)

From Stdlib Require Import ZArith String Ascii List Lia.
From Stdlib Require Import Strings.Byte.
From stdpp Require Import base option gmap strings fin_maps.

Set Warnings "-register-all".

Local Open Scope string_scope.
Local Open Scope list_scope.
Local Open Scope Z_scope.

(** ** Python values and objects *)

(** A Python [bytes] object. *)
Abbreviation bytes := (list byte).

(** The values a transaction dict holds under its keys. *)
Inductive value :=
| VInt (z : Z)
| VStr (s : string)
| VBytes (b : bytes)
| VNone.

(** [TxParams]: a dict from field names to values. *)
Abbreviation TxParams := (gmap string value).

(** The exception classes the adapter raises or can meet.  [OtherError]
    stands for any other class that derives from [Exception], by name;
    [BaseOnly] for a class that derives from [BaseException] and not from
    [Exception] ([KeyboardInterrupt], [SystemExit], [GeneratorExit]). *)
Inductive exn_class :=
| NotImplementedError
| ValueError
| TypeError
| AttributeError
| KeyError
| OtherError (name : string)
| BaseOnly (name : string).

(** [issubclass(c, Exception)]: what [except Exception] catches. *)
Definition is_Exception (c : exn_class) : bool :=
  match c with
  | BaseOnly _ => false
  | _ => true
  end.

(** An exception: its class, [str(e)], and [__cause__] as set by
    [raise ... from e]. *)
Inductive exn :=
| Exn (cls : exn_class) (msg : string) (cause : option exn).

Definition exn_cls (e : exn) : exn_class := let 'Exn c _ _ := e in c.
Definition exn_msg (e : exn) : string := let 'Exn _ m _ := e in m.

(** What [except Exception as e: raise wrap(e) from e] lets out when [e]
    comes up: [wrap e] if the clause catches [e], [e] itself if not. *)
Definition reraised (wrap : exn -> exn) (e : exn) : exn :=
  if is_Exception (exn_cls e) then wrap e else e.

(** The outcome of a Python call: a value or a raised exception. *)
Inductive result (A : Type) :=
| Ok (a : A)
| Raise (e : exn).
Arguments Ok {A} a.
Arguments Raise {A} e.

(** eth_account's [SignableMessage(version, header, body)]. *)
Record SignableMessage := {
  version : bytes;
  header : bytes;
  body : bytes
}.

(** eth_account's [SignedMessage]; the adapter reads [signature] and
    [messageHash] only. *)
Record SignedMessage := {
  messageHash : bytes;
  signature : bytes
}.

(** What a signer hands back: an object of some type that may or may not
    carry the attributes [rawTransaction] / [raw_transaction]. *)
Record SignedTx := {
  stx_type : string;                         (* str(type(signed_tx)) *)
  stx_is_SignedTransactionWithNonce : bool;  (* isinstance(...) *)
  stx_attrs : gmap string bytes
}.

(** The class of the wrapped wallet, as [isinstance] sees it; for a wallet
    that is neither of the two known classes, [str(type(wallet))]. *)
Inductive wallet_class :=
| HotWallet
| Web3ProviderWallet
| OtherWallet (type_str : string).

(** The wallet object.  [current_nonce] is [None] when the attribute does
    not exist, [Some None] when it holds Python's [None], [Some (Some n)]
    when it holds the integer [n]. *)
Record Wallet := {
  wclass : wallet_class;
  current_nonce : option (option Z);
  has_sign_message : bool;     (* hasattr(wallet, "sign_message") *)
  has_allocate_nonce : bool    (* hasattr(wallet, "allocate_nonce") *)
}.

Definition set_current_nonce (n : Z) (w : Wallet) : Wallet :=
  {| wclass := wclass w;
     current_nonce := Some (Some n);
     has_sign_message := has_sign_message w;
     has_allocate_nonce := has_allocate_nonce w |}.

(** The message argument of [sign_message]: [Union[str, bytes, int]], or
    an object of another type (by the name of its type). *)
Inductive message :=
| MStr (s : string)
| MInt (z : Z)
| MBytes (b : bytes)
| MOther (type_str : string).

(** ** Outside calls *)

(** One entry per call that leaves the adapter: into the wallet's account,
    into the wallet, into the web3 client. *)
Inductive event :=
| AccountSignMessage (m : SignableMessage)
| AccountSignTransaction (tx : TxParams)
| WalletSignMessage (m : SignableMessage)
| WalletSignTransactionWithNewNonce (tx : TxParams)
| WalletAllocateNonce
| EthSendTransaction (tx : TxParams)
| EthSendRawTransaction (raw : bytes).

(** The code the adapter calls and does not define.  Wallet methods take
    the wallet object and return it as they leave it, whether they return
    or raise; [sign_transaction_with_new_nonce] is handed the caller's dict
    itself and returns it as it leaves it. *)
Class Collaborators := {
  (* hexbytes, web3, eth_account *)
  HexBytes_str : string -> result bytes;          (* HexBytes("0x...") *)
  str_encode_utf8 : string -> bytes;              (* s.encode("utf-8") *)
  Web3_to_bytes : Z -> result bytes;              (* Web3.to_bytes(i) *)
  encode_defunct : bytes -> SignableMessage;
  (* wallet.account *)
  account_sign_message : SignableMessage -> result SignedMessage;
  account_sign_transaction : TxParams -> result SignedTx;
  (* BaseWallet methods *)
  wallet_sign_message : SignableMessage -> Wallet -> result SignedMessage * Wallet;
  sign_transaction_with_new_nonce :
    TxParams -> Wallet -> result SignedTx * Wallet * TxParams;
  allocate_nonce : Wallet -> result Z * Wallet;
  (* web3.eth *)
  eth_send_transaction : TxParams -> result bytes;
  eth_send_raw_transaction : bytes -> result bytes
}.

(** ** The state-and-exception monad *)

(** What a call of the adapter can read and change: the wallet object, the
    dict the caller passed (by reference), and the outside calls so far. *)
Record state := {
  wallet : Wallet;
  request : TxParams;
  calls : list event
}.

Definition M (A : Type) : Type := state -> result A * state.

Definition ret {A} (a : A) : M A := fun s => (Ok a, s).
Definition raise {A} (e : exn) : M A := fun s => (Raise e, s).
Definition bind {A B} (c : M A) (k : A -> M B) : M B :=
  fun s => match c s with
           | (Ok a, s') => k a s'
           | (Raise e, s') => (Raise e, s')
           end.
(** [try: c except Exception as e: h e]: an exception of a class that
    does not derive from [Exception] is not caught. *)
Definition try_except {A} (c : M A) (h : exn -> M A) : M A :=
  fun s => match c s with
           | (Ok a, s') => (Ok a, s')
           | (Raise e, s') =>
               if is_Exception (exn_cls e) then h e s' else (Raise e, s')
           end.

Notation "x <- c ;; k" := (bind c (fun x => k))
  (at level 20, c at level 99, k at level 200, only parsing).
Notation "c ;;; k" := (bind c (fun _ => k))
  (at level 100, k at level 200, only parsing, right associativity).

Definition get_wallet : M Wallet := fun s => (Ok (wallet s), s).
Definition get_request : M TxParams := fun s => (Ok (request s), s).
Definition put_wallet (w : Wallet) : M unit :=
  fun s => (Ok tt, {| wallet := w; request := request s; calls := calls s |}).
Definition put_request (tx : TxParams) : M unit :=
  fun s => (Ok tt, {| wallet := wallet s; request := tx; calls := calls s |}).
Definition emit (ev : event) : M unit :=
  fun s => (Ok tt, {| wallet := wallet s; request := request s;
                      calls := calls s ++ [ev] |}).
Definition lift {A} (r : result A) : M A := fun s => (r, s).

(** [v + 1] on a dict value. *)
Definition py_add1 (v : value) : M Z :=
  match v with
  | VInt z => ret (z + 1)
  | _ => raise (Exn TypeError "unsupported operand type(s) for +" None)
  end.

(** [unsigned_tx[k]] *)
Definition getitem (k : string) : M value :=
  tx <- get_request ;;
  match tx !! k with
  | Some v => ret v
  | None => raise (Exn KeyError k None)
  end.

(** [unsigned_tx.pop(k)] *)
Definition pop (k : string) : M value :=
  tx <- get_request ;;
  match tx !! k with
  | Some v => put_request (delete k tx) ;;; ret v
  | None => raise (Exn KeyError k None)
  end.

(** [unsigned_tx[k] = v] *)
Definition setitem (k : string) (v : value) : M unit :=
  tx <- get_request ;;
  put_request (<[k := v]> tx).

(** [self.wallet.current_nonce] *)
Definition getattr_current_nonce : M (option Z) :=
  w <- get_wallet ;;
  match current_nonce w with
  | Some c => ret c
  | None => raise (Exn AttributeError "current_nonce" None)
  end.

(** [self.wallet.current_nonce = n] *)
Definition setattr_current_nonce (n : Z) : M unit :=
  w <- get_wallet ;;
  put_wallet (set_current_nonce n w).

Section Adapter.

Context `{E : Collaborators}.

(** *** Calls that leave the adapter *)

Definition call_account_sign_message (m : SignableMessage) : M SignedMessage :=
  emit (AccountSignMessage m) ;;; lift (account_sign_message m).

Definition call_account_sign_transaction (tx : TxParams) : M SignedTx :=
  emit (AccountSignTransaction tx) ;;; lift (account_sign_transaction tx).

Definition call_wallet_sign_message (m : SignableMessage) : M SignedMessage :=
  emit (WalletSignMessage m) ;;;
  fun s => let '(r, w') := wallet_sign_message m (wallet s) in
           (r, {| wallet := w'; request := request s; calls := calls s |}).

(** [self.wallet.sign_transaction_with_new_nonce(unsigned_tx)] *)
Definition call_sign_transaction_with_new_nonce : M SignedTx :=
  tx <- get_request ;;
  emit (WalletSignTransactionWithNewNonce tx) ;;;
  fun s => let '(r, w', tx') := sign_transaction_with_new_nonce tx (wallet s) in
           (r, {| wallet := w'; request := tx'; calls := calls s |}).

Definition call_allocate_nonce : M Z :=
  emit WalletAllocateNonce ;;;
  fun s => let '(r, w') := allocate_nonce (wallet s) in
           (r, {| wallet := w'; request := request s; calls := calls s |}).

Definition call_eth_send_transaction (tx : TxParams) : M bytes :=
  emit (EthSendTransaction tx) ;;; lift (eth_send_transaction tx).

Definition call_eth_send_raw_transaction (raw : bytes) : M bytes :=
  emit (EthSendRawTransaction raw) ;;; lift (eth_send_raw_transaction raw).

(** *** WalletAdapterSigner.sign_message *)

(** Lines 59-71: the message is turned into a [SignableMessage], outside
    the [try]. *)
Definition signable_of (msg : message) : M SignableMessage :=
  match msg with
  | MStr s =>
      if String.prefix "0x" s
      then b <- lift (HexBytes_str s) ;; ret (encode_defunct b)
      else ret (encode_defunct (str_encode_utf8 s))
  | MInt z => b <- lift (Web3_to_bytes z) ;; ret (encode_defunct b)
  | MBytes b => ret (encode_defunct b)
  | MOther ty => raise (Exn ValueError ("Unsupported message type: " +:+ ty) None)
  end.

(** The [except Exception as e: raise ValueError(f"...{str(e)}") from e] of
    line 91. *)
Definition sign_failed (e : exn) : exn :=
  Exn ValueError ("Failed to sign message: " +:+ exn_msg e) (Some e).

Definition sign_message (msg : message) : M bytes :=
  signable_message <- signable_of msg ;;
  try_except
    (w <- get_wallet ;;
     match wclass w with
     | HotWallet =>
         sig <- call_account_sign_message signable_message ;;
         ret (signature sig)
     | Web3ProviderWallet =>
         raise (Exn NotImplementedError
                  "Message signing not implemented for wallet type: Web3ProviderWallet"
                  None)
     | OtherWallet ty =>
         if has_sign_message w
         then sm <- call_wallet_sign_message signable_message ;;
              ret (messageHash sm)
         else raise (Exn NotImplementedError
                       ("Message signing not implemented for wallet type: " +:+ ty)
                       None)
     end)
    (fun e => raise (sign_failed e)).

(** *** WalletAdapterSigner.sign_transaction *)

Definition sign_transaction : M SignedTx :=
  unsigned_tx <- get_request ;;
  w <- get_wallet ;;
  match unsigned_tx !! "nonce" with
  | Some _ =>
      match wclass w with
      | HotWallet =>
          result <- call_account_sign_transaction unsigned_tx ;;
          c <- getattr_current_nonce ;;
          match c with
          | Some cur =>
              v <- getitem "nonce" ;;
              n1 <- py_add1 v ;;
              cur' <- getattr_current_nonce ;;
              match cur' with
              | Some cur' => setattr_current_nonce (Z.max n1 cur')
              | None => raise (Exn TypeError "'>' not supported" None)
              end
          | None => ret tt
          end ;;;
          ret result
      | Web3ProviderWallet =>
          raise (Exn NotImplementedError
                   "Direct signing with nonce not supported for Web3ProviderWallet"
                   None)
      | OtherWallet _ =>
          nonce <- pop "nonce" ;;
          result <- call_sign_transaction_with_new_nonce ;;
          setitem "nonce" nonce ;;;
          w' <- get_wallet ;;
          match current_nonce w' with
          | Some (Some _) =>
              n1 <- py_add1 nonce ;;
              cur <- getattr_current_nonce ;;
              match cur with
              | Some cur => setattr_current_nonce (Z.max n1 cur)
              | None => raise (Exn TypeError "'>' not supported" None)
              end
          | _ => ret tt
          end ;;;
          ret result
      end
  | None => call_sign_transaction_with_new_nonce
  end.

(** *** WalletAdapterSigner.send_transaction *)

(** Lines 170-177: the raw bytes of a signed transaction. *)
Definition extract_raw (signed_tx : SignedTx) : result bytes :=
  match stx_attrs signed_tx !! "rawTransaction" with
  | Some raw_tx => Ok raw_tx
  | None =>
      match stx_attrs signed_tx !! "raw_transaction" with
      | Some raw_tx => Ok raw_tx
      | None =>
          if stx_is_SignedTransactionWithNonce signed_tx
          then match stx_attrs signed_tx !! "rawTransaction" with
               | Some raw_tx => Ok raw_tx
               | None => Raise (Exn AttributeError "rawTransaction" None)
               end
          else Raise (Exn ValueError
                        ("Unknown signed transaction format: " +:+ stx_type signed_tx)
                        None)
      end
  end.

(** The [except Exception as e: raise ValueError(f"...{e!s}") from e] of
    line 181. *)
Definition send_failed (e : exn) : exn :=
  Exn ValueError ("Failed to send transaction: " +:+ exn_msg e) (Some e).

Definition send_transaction : M bytes :=
  w <- get_wallet ;;
  match wclass w with
  | Web3ProviderWallet =>
      unsigned_tx <- get_request ;;
      let tx_copy := unsigned_tx in
      let tx_copy := match tx_copy !! "from" with
                     | Some _ => delete "from" tx_copy
                     | None => tx_copy
                     end in
      tx_copy <- match tx_copy !! "nonce" with
                 | None =>
                     if has_allocate_nonce w
                     then n <- call_allocate_nonce ;; ret (<["nonce" := VInt n]> tx_copy)
                     else ret tx_copy
                 | Some _ => ret tx_copy
                 end ;;
      call_eth_send_transaction tx_copy
  | _ =>
      try_except
        (signed_tx <- sign_transaction ;;
         raw_tx <- lift (extract_raw signed_tx) ;;
         call_eth_send_raw_transaction raw_tx)
        (fun e => raise (send_failed e))
  end.

(** *** Notions the properties are stated with *)

(** The canonical byte sequence of a message, in the words of the
    specification: a hex string is decoded, a plain string is encoded as
    UTF-8, an integer becomes its big-endian bytes, bytes pass through. *)
Definition canonical_bytes (msg : message) : result bytes :=
  match msg with
  | MStr s => if String.prefix "0x" s then HexBytes_str s else Ok (str_encode_utf8 s)
  | MInt z => Web3_to_bytes z
  | MBytes b => Ok b
  | MOther ty => Raise (Exn ValueError ("Unsupported message type: " +:+ ty) None)
  end.

(** What the [try] of lines 73-92 yields from an account's answer. *)
Definition signature_or_failure (r : result SignedMessage) : result bytes :=
  match r with
  | Ok sig => Ok (signature sig)
  | Raise e => Raise (reraised sign_failed e)
  end.

(** The state [sign_transaction] leaves on a [HotWallet] once the account
    has been asked to sign: one call went out, to the account. *)
Definition after_account_sign (s : state) (w : Wallet) : state :=
  {| wallet := w; request := request s;
     calls := calls s ++ [AccountSignTransaction (request s)] |}.

(** [s] with one more outside call. *)
Definition and_then (s : state) (ev : event) : state :=
  {| wallet := wallet s; request := request s; calls := calls s ++ [ev] |}.

(** A set [current_nonce] stays set and does not go down from [w] to [w']. *)
Definition nonce_le (w w' : Wallet) : Prop :=
  forall c, current_nonce w = Some (Some c) ->
            exists c', current_nonce w' = Some (Some c') /\ c <= c'.

(** A computation that never leaves the wallet with a smaller
    [current_nonce] than it found, whether it returns or raises. *)
Definition monotone {A} (c : M A) : Prop :=
  forall s, nonce_le (wallet s) (wallet (snd (c s))).

(** The wallet's own methods never lower a set [current_nonce]. *)
Record wallet_keeps_nonce : Prop := {
  keeps_sign_message :
    forall m w, nonce_le w (snd (wallet_sign_message m w));
  keeps_sign_transaction_with_new_nonce :
    forall tx w, nonce_le w (snd (fst (sign_transaction_with_new_nonce tx w)));
  keeps_allocate_nonce :
    forall w, nonce_le w (snd (allocate_nonce w))
}.

End Adapter.

(** ** Reference collaborators

    Concrete stand-ins for the outside code, used to run the adapter on
    examples: hex decoding and big-endian conversion as hexbytes and web3
    do them, the EIP-191 wrapping of eth_account, a toy deterministic
    "key", a wallet whose allocator hands out [current_nonce] and
    increments it, and a chain client that accepts everything. *)
Module Ref.

Definition byte_of_N (n : N) : byte := default x00 (Byte.of_N n).

Definition hex_digit (c : ascii) : option N :=
  let n := N_of_ascii c in
  if ((48 <=? n) && (n <=? 57))%N then Some (n - 48)%N
  else if ((97 <=? n) && (n <=? 102))%N then Some (n - 87)%N
  else if ((65 <=? n) && (n <=? 70))%N then Some (n - 55)%N
  else None.

Fixpoint unhexlify (s : string) : option bytes :=
  match s with
  | EmptyString => Some []
  | String a (String b rest) =>
      match hex_digit a, hex_digit b, unhexlify rest with
      | Some h, Some l, Some bs => Some (byte_of_N (16 * h + l) :: bs)
      | _, _, _ => None
      end
  | String _ EmptyString => None
  end.

Definition strip_0x (s : string) : string :=
  if String.prefix "0x" s || String.prefix "0X" s
  then String.substring 2 (String.length s - 2) s
  else s.

(** [HexBytes(s)] for a [str]: prefix dropped, odd length padded on the
    left, then [binascii.unhexlify]. *)
Definition HexBytes_str (s : string) : result bytes :=
  let h := strip_0x s in
  let h := if Nat.even (String.length h) then h else String "0" h in
  match unhexlify h with
  | Some b => Ok b
  | None => Raise (Exn (OtherError "binascii.Error") "Non-hexadecimal digit found" None)
  end.

(** UTF-8 of a string whose characters are code points below 256. *)
Fixpoint str_encode_utf8 (s : string) : bytes :=
  match s with
  | EmptyString => []
  | String c rest =>
      let n := N_of_ascii c in
      (if (n <? 128)%N then [byte_of_N n]
       else [byte_of_N (192 + n / 64); byte_of_N (128 + n mod 64)])
        ++ str_encode_utf8 rest
  end.

Fixpoint be_bytes (fuel : nat) (n : N) (acc : bytes) : bytes :=
  match fuel with
  | O => acc
  | S fuel' =>
      if (n =? 0)%N then acc
      else be_bytes fuel' (n / 256) (byte_of_N (n mod 256) :: acc)
  end.

(** [Web3.to_bytes(i)]: the shortest big-endian form, one zero byte for 0;
    a negative integer has no such form. *)
Definition Web3_to_bytes (z : Z) : result bytes :=
  if z <? 0 then Raise (Exn (OtherError "binascii.Error") "Non-hexadecimal digit found" None)
  else if z =? 0 then Ok [x00]
  else Ok (be_bytes (S (Z.to_nat (Z.log2 z))) (Z.to_N z) []).

(** Decimal digits of a length, as ASCII bytes. *)
Fixpoint dec_bytes (fuel : nat) (n : N) (acc : bytes) : bytes :=
  match fuel with
  | O => acc
  | S fuel' =>
      let acc' := byte_of_N (48 + n mod 10) :: acc in
      if (n <? 10)%N then acc' else dec_bytes fuel' (n / 10) acc'
  end.

Definition encode_defunct (b : bytes) : SignableMessage :=
  {| version := str_encode_utf8 "E";
     header := str_encode_utf8 "thereum Signed Message:" ++ [x0a]
               ++ dec_bytes (S (length b)) (N.of_nat (length b)) [];
     body := b |}.

(** A toy key: the "hash" is header and body, the "signature" is the body
    reversed behind a marker byte. *)
Definition toy_sign (m : SignableMessage) : SignedMessage :=
  {| messageHash := header m ++ body m;
     signature := x1b :: rev (body m) |}.

Definition signed_with (attr : string) (n : Z) : SignedTx :=
  {| stx_type := "<class 'eth_account.datastructures.SignedTransaction'>";
     stx_is_SignedTransactionWithNonce := false;
     stx_attrs := {[ attr := x02 :: be_bytes 32 (Z.to_N n) [] ]} |}.

Definition account_sign_transaction (tx : TxParams) : result SignedTx :=
  match tx !! "nonce" with
  | Some (VInt n) => Ok (signed_with "raw_transaction" n)
  | _ => Raise (Exn TypeError "Transaction must include these fields: {'nonce'}" None)
  end.

Definition allocate_nonce (w : Wallet) : result Z * Wallet :=
  match current_nonce w with
  | Some (Some n) => (Ok n, set_current_nonce (n + 1) w)
  | _ => (Raise (Exn (OtherError "AssertionError") "Nonce is not yet synced from the blockchain" None), w)
  end.

(** As [HotWallet.sign_transaction_with_new_nonce]: the allocated nonce is
    written into the dict that was passed in. *)
Definition sign_transaction_with_new_nonce (tx : TxParams) (w : Wallet)
  : result SignedTx * Wallet * TxParams :=
  match tx !! "nonce" with
  | Some _ => (Raise (Exn (OtherError "AssertionError") "" None), w, tx)
  | None =>
      match allocate_nonce w with
      | (Ok n, w') => (Ok (signed_with "rawTransaction" n), w', <["nonce" := VInt n]> tx)
      | (Raise e, w') => (Raise e, w', tx)
      end
  end.

Definition collaborators : Collaborators :=
  Build_Collaborators
    HexBytes_str str_encode_utf8 Web3_to_bytes encode_defunct
    (fun m => Ok (toy_sign m))
    account_sign_transaction
    (fun m w => (Ok (toy_sign m), w))
    sign_transaction_with_new_nonce
    allocate_nonce
    (fun tx => Ok [xaa])
    (fun raw => Ok [xbb]).

(** The same collaborators with a chain client that is down. *)
Definition offline : Collaborators :=
  Build_Collaborators
    HexBytes_str str_encode_utf8 Web3_to_bytes encode_defunct
    (fun m => Ok (toy_sign m))
    account_sign_transaction
    (fun m w => (Ok (toy_sign m), w))
    sign_transaction_with_new_nonce
    allocate_nonce
    (fun tx => Raise (Exn (OtherError "ConnectionError") "connection refused" None))
    (fun raw => Raise (Exn (OtherError "ConnectionError") "connection refused" None)).

(** Collaborators around a wallet that keeps no nonce of its own: its
    signing method leaves wallet and dict alone. *)
Definition untracked : Collaborators :=
  Build_Collaborators
    HexBytes_str str_encode_utf8 Web3_to_bytes encode_defunct
    (fun m => Ok (toy_sign m))
    account_sign_transaction
    (fun m w => (Ok (toy_sign m), w))
    (fun tx w => (Ok (signed_with "rawTransaction" 0), w, tx))
    allocate_nonce
    (fun tx => Ok [xaa])
    (fun raw => Ok [xbb]).

(** Collaborators interrupted from the keyboard while the account signs a
    message or while the raw transaction is on its way. *)
Definition interrupted : Collaborators :=
  Build_Collaborators
    HexBytes_str str_encode_utf8 Web3_to_bytes encode_defunct
    (fun m => Raise (Exn (BaseOnly "KeyboardInterrupt") "" None))
    account_sign_transaction
    (fun m w => (Ok (toy_sign m), w))
    sign_transaction_with_new_nonce
    allocate_nonce
    (fun tx => Ok [xaa])
    (fun raw => Raise (Exn (BaseOnly "KeyboardInterrupt") "" None)).

(** A wallet object without the optional methods. *)
Definition bare_wallet (c : wallet_class) (n : option (option Z)) : Wallet :=
  {| wclass := c; current_nonce := n;
     has_sign_message := false; has_allocate_nonce := false |}.

Definition a_wallet (c : wallet_class) (n : option (option Z)) : Wallet :=
  {| wclass := c; current_nonce := n;
     has_sign_message := true; has_allocate_nonce := true |}.

Definition a_state (c : wallet_class) (n : option (option Z)) (tx : TxParams) : state :=
  {| wallet := a_wallet c n; request := tx; calls := [] |}.

(** A transfer request, with and without an explicit nonce. *)
Definition tx_plain : TxParams :=
  {[ "to" := VStr "0x00000000000000000000000000000000000000aa";
     "value" := VInt 1000;
     "from" := VStr "0x00000000000000000000000000000000000000bb" ]}.

Definition tx_nonce (n : Z) : TxParams := <["nonce" := VInt n]> tx_plain.

End Ref.

(** * tests/gmx/debug.py: override_storage_slot

    The helper that writes one storage slot of a contract on a forked
    node.  Python's [hex], slicing, [str.zfill] and [str.startswith] are
    written out; the web3 object is a record of the calls made on it, and
    a run yields its outcome together with the calls and prints it made,
    in order. *)
Module Debug.

(** [hex(value)]: lowercase digits, no leading zero, the sign in front of
    the ["0x"]. *)
Definition hex_char (d : N) : ascii :=
  if (d <? 10)%N then ascii_of_N (48 + d) else ascii_of_N (87 + d).

Fixpoint hex_digits (fuel : nat) (n : N) (acc : string) : string :=
  match fuel with
  | O => acc
  | S fuel' =>
      if (n =? 0)%N then acc
      else hex_digits fuel' (n / 16) (String (hex_char (n mod 16)) acc)
  end.

Definition hex_of_N (n : N) : string :=
  if (n =? 0)%N then "0" else hex_digits (S (N.to_nat (N.log2 n))) n "".

Definition py_hex (z : Z) : string :=
  if z <? 0 then "-0x" +:+ hex_of_N (Z.to_N (- z))
  else "0x" +:+ hex_of_N (Z.to_N z).

(** [s[n:]] *)
Fixpoint slice_from (n : nat) (s : string) : string :=
  match n, s with
  | O, _ => s
  | S n', String _ rest => slice_from n' rest
  | S _, EmptyString => EmptyString
  end.

Fixpoint zeros (n : nat) : string :=
  match n with
  | O => EmptyString
  | S n' => String "0" (zeros n')
  end.

(** [s.zfill(width)]: zeros on the left up to [width], behind a leading
    sign; [s] itself when it is long enough. *)
Definition zfill (width : nat) (s : string) : string :=
  if (width <=? String.length s)%nat then s
  else
    let pad := zeros (width - String.length s) in
    match s with
    | String c rest =>
        if (c =? "+")%char || (c =? "-")%char then String c (pad +:+ rest)
        else pad +:+ s
    | EmptyString => pad
    end.

(** Lines 430-433: [hex(value)[2:]] padded to 64 characters behind
    ["0x"]. *)
Definition padded_hex_value (value : Z) : string :=
  let hex_value := slice_from 2 (py_hex value) in
  "0x" +:+ zfill 64 hex_value.

(** Lines 436-441: [if not s.startswith("0x"): s = "0x" + s]. *)
Definition with_0x (s : string) : string :=
  if String.prefix "0x" s then s else "0x" +:+ s.

(** The [web3] argument: what the function calls on it.  A JSON-RPC
    response is the dict of its fields, each by its text. *)
Record Web3 := {
  is_connected : bool;
  endpoint_uri : string;
  to_checksum_address : string -> result string;
  make_request : string -> list string -> result (gmap string string);
  get_storage_at : string -> string -> result bytes;
  HexBytes_hex : bytes -> string                      (* storage_value.hex() *)
}.

(** What a run does to the outside, in order. *)
Inductive action :=
| IsConnected
| ToChecksumAddress (address : string)
| MakeRequest (method : string) (params : list string)
| GetStorageAt (address slot : string)
| Print (line : string).

(** Outcome and actions of a run. *)
Definition R (A : Type) : Type := result A * list action.

Definition rret {A} (a : A) : R A := (Ok a, []).
Definition rraise {A} (e : exn) : R A := (Raise e, []).
Definition rbind {A B} (c : R A) (k : A -> R B) : R B :=
  match c with
  | (Ok a, done) => let '(r, more) := k a in (r, done ++ more)
  | (Raise e, done) => (Raise e, done)
  end.
Definition act {A} (a : action) (r : result A) : R A := (r, [a]).

Notation "x <~ c ;; k" := (rbind c (fun x => k))
  (at level 20, c at level 99, k at level 200, only parsing).

Definition override_storage_slot
    (web3 : Web3) (contract_address slot : string) (value : Z)
  : R (gmap string string) :=
  connected <~ act IsConnected (Ok (is_connected web3)) ;;
  if negb connected
  then rraise (Exn (OtherError "Exception")
                 ("Could not connect to Anvil node at " +:+ endpoint_uri web3) None)
  else
    let padded_hex_value := padded_hex_value value in
    let slot := with_0x slot in
    let contract_address := with_0x contract_address in
    contract_address <~ act (ToChecksumAddress contract_address)
                          (to_checksum_address web3 contract_address) ;;
    result <~ act (MakeRequest "tenderly_setStorageAt"
                     [contract_address; slot; padded_hex_value])
                (make_request web3 "tenderly_setStorageAt"
                   [contract_address; slot; padded_hex_value]) ;;
    match result !! "error" with
    | Some err =>
        rraise (Exn (OtherError "Exception") ("Error setting storage: " +:+ err) None)
    | None =>
        _ <~ act (Print ("Successfully set storage at slot " +:+ slot
                         +:+ " to " +:+ padded_hex_value)) (Ok tt) ;;
        storage_value <~ act (GetStorageAt contract_address slot)
                           (get_storage_at web3 contract_address slot) ;;
        _ <~ act (Print ("Verified value: " +:+ HexBytes_hex web3 storage_value))
               (Ok tt) ;;
        rret result
    end.

(** [int(s, 16)] for a string of hex digits, to read the payload back. *)
Definition hex_val (c : ascii) : option N :=
  let n := N_of_ascii c in
  if ((48 <=? n) && (n <=? 57))%N then Some (n - 48)%N
  else if ((97 <=? n) && (n <=? 102))%N then Some (n - 87)%N
  else if ((65 <=? n) && (n <=? 70))%N then Some (n - 55)%N
  else None.

Fixpoint int_of_hex_from (acc : N) (s : string) : option N :=
  match s with
  | EmptyString => Some acc
  | String c rest =>
      match hex_val c with
      | Some d => int_of_hex_from (16 * acc + d) rest
      | None => None
      end
  end.

Definition int_of_hex (s : string) : option N :=
  match s with
  | EmptyString => None
  | _ => int_of_hex_from 0 s
  end.

(** A node that stores what it is told, for the examples. *)
Definition a_node (connected : bool) (response : gmap string string) : Web3 :=
  {| is_connected := connected;
     endpoint_uri := "http://localhost:8545";
     to_checksum_address := fun a => Ok a;
     make_request := fun _ _ => Ok response;
     get_storage_at := fun _ _ => Ok [];
     HexBytes_hex := fun _ => "0x" |}.

End Debug.

(** ** Notions for the further properties *)

(** A call into the web3 client. *)
Definition is_chain_call (ev : event) : bool :=
  match ev with
  | EthSendTransaction _ | EthSendRawTransaction _ => true
  | _ => false
  end.

(** A computation that only adds outside calls satisfying [P] to the log. *)
Definition appends (P : event -> Prop) {A} (c : M A) : Prop :=
  forall s, exists new, calls (snd (c s)) = calls s ++ new /\ Forall P new.

(** The exception, if any, that comes up inside the [try] of
    [sign_message] (lines 73-89) on wallet [w], for a message whose
    canonical bytes are [b]: the one the account or the wallet's own
    method raises, or the [NotImplementedError] of line 82 or 89. *)
Definition raised_in_sign_message `{E : Collaborators}
    (w : Wallet) (b : bytes) (e0 : exn) : Prop :=
  match wclass w with
  | HotWallet => account_sign_message (encode_defunct b) = Raise e0
  | Web3ProviderWallet =>
      e0 = Exn NotImplementedError
             "Message signing not implemented for wallet type: Web3ProviderWallet"
             None
  | OtherWallet ty =>
      if has_sign_message w
      then fst (wallet_sign_message (encode_defunct b) w) = Raise e0
      else e0 = Exn NotImplementedError
                  ("Message signing not implemented for wallet type: " +:+ ty)
                  None
  end.

(** The exception, if any, that comes up inside the [try] of
    [send_transaction] (lines 166-180) from state [s]: the one
    [sign_transaction] raises, else the one the extraction of the raw
    bytes raises, else the one [web3.eth.send_raw_transaction] raises. *)
Definition raised_in_send_transaction `{E : Collaborators}
    (s : state) (e0 : exn) : Prop :=
  match fst (sign_transaction s) with
  | Raise e => e0 = e
  | Ok signed_tx =>
      match extract_raw signed_tx with
      | Raise e => e0 = e
      | Ok raw => eth_send_raw_transaction raw = Raise e0
      end
  end.

(** The caller invoking a method with the dict [tx] as its argument. *)
Definition with_request {A} (tx : TxParams) (c : M A) : M A :=
  fun s => c {| wallet := wallet s; request := tx; calls := calls s |}.

(** ** Running the monad in proofs *)

Ltac run :=
  cbv beta iota zeta delta
    [bind ret raise try_except lift get_wallet get_request put_wallet
     put_request emit py_add1 getitem pop setitem getattr_current_nonce
     setattr_current_nonce call_account_sign_message
     call_account_sign_transaction call_wallet_sign_message
     call_sign_transaction_with_new_nonce call_allocate_nonce
     call_eth_send_transaction call_eth_send_raw_transaction
     wallet request calls].

(** [run] as far as the given facts about the state take it. *)
Tactic Notation "run" "with" constr(H1) constr(H2) :=
  repeat (run; rewrite ?H1, ?H2).
Tactic Notation "run" "with" constr(H1) constr(H2) constr(H3) :=
  repeat (run; rewrite ?H1, ?H2, ?H3).

(** ** sign_transaction with an explicit nonce *)

Section SignTransaction.

Context `{E : Collaborators}.

Lemma sign_transaction_hot_set (s : state) (v : value) (cur : Z) :
  wclass (wallet s) = HotWallet ->
  current_nonce (wallet s) = Some (Some cur) ->
  request s !! "nonce" = Some v ->
  sign_transaction s =
    match account_sign_transaction (request s) with
    | Ok r =>
        match v with
        | VInt n => (Ok r, after_account_sign s (set_current_nonce (Z.max (n + 1) cur) (wallet s)))
        | _ => (Raise (Exn TypeError "unsupported operand type(s) for +" None),
                after_account_sign s (wallet s))
        end
    | Raise e => (Raise e, after_account_sign s (wallet s))
    end.
Proof.
  intros Hc Hn Hv. unfold sign_transaction, after_account_sign.
  destruct s as [w tx cs]; simpl in *. run with Hv Hc.
  destruct (account_sign_transaction tx) as [r|e]; [|reflexivity].
  run with Hn Hv. destruct v; run with Hn Hv; reflexivity.
Qed.

(** C1: on a [HotWallet] whose [current_nonce] is set, signing a
    transaction that carries the explicit nonce [n] returns what the
    account signed and sets [current_nonce] to [max(n + 1, current_nonce)];
    the new value is at least [n + 1] and at least the old one.  (When the
    account itself raises, its exception leaves the call and the wallet
    object is as it was.) *)
Theorem sign_transaction_hot_wallet_reconciles (s : state) (n cur : Z) :
  wclass (wallet s) = HotWallet ->
  current_nonce (wallet s) = Some (Some cur) ->
  request s !! "nonce" = Some (VInt n) ->
  (forall r,
      account_sign_transaction (request s) = Ok r ->
      exists s' new,
        sign_transaction s = (Ok r, s') /\
        current_nonce (wallet s') = Some (Some new) /\
        new = Z.max (n + 1) cur /\
        n + 1 <= new /\
        cur <= new) /\
  (forall e,
      account_sign_transaction (request s) = Raise e ->
      sign_transaction s = (Raise e, after_account_sign s (wallet s))).
Proof.
  intros Hc Hn Hv.
  rewrite (sign_transaction_hot_set s (VInt n) cur Hc Hn Hv). split.
  - intros r ->. eexists _, _. split; [reflexivity|]. simpl. repeat split; lia.
  - intros e ->. reflexivity.
Qed.

(** The generic branch (lines 125-132), whatever the wallet's method does:
    it is handed the dict without its nonce, the nonce is put back once it
    has returned, and [current_nonce] is read from the wallet as the method
    left it. *)
Lemma sign_transaction_other (s : state) (ty : string) (v : value) :
  wclass (wallet s) = OtherWallet ty ->
  request s !! "nonce" = Some v ->
  sign_transaction s =
    let tx0 := delete "nonce" (request s) in
    let cs := calls s ++ [WalletSignTransactionWithNewNonce tx0] in
    let '(res, w', tx') := sign_transaction_with_new_nonce tx0 (wallet s) in
    match res with
    | Raise e => (Raise e, {| wallet := w'; request := tx'; calls := cs |})
    | Ok r =>
        let restored := <["nonce" := v]> tx' in
        match current_nonce w', v with
        | Some (Some cur), VInt n =>
            (Ok r, {| wallet := set_current_nonce (Z.max (n + 1) cur) w';
                      request := restored; calls := cs |})
        | Some (Some cur), _ =>
            (Raise (Exn TypeError "unsupported operand type(s) for +" None),
             {| wallet := w'; request := restored; calls := cs |})
        | _, _ => (Ok r, {| wallet := w'; request := restored; calls := cs |})
        end
    end.
Proof.
  intros Hc Hv. unfold sign_transaction.
  destruct s as [w tx cs]; simpl in *. run with Hv Hc.
  destruct (sign_transaction_with_new_nonce (delete "nonce" tx) w) as [[res w'] tx'].
  destruct res as [r|e]; [|reflexivity].
  destruct (current_nonce w') as [[cur|]|] eqn:Hcur; try reflexivity.
  destruct v; try reflexivity. run with Hcur Hcur. reflexivity.
Qed.

(** C6: on a generic wallet, when [sign_transaction] returns, the caller's
    dict holds under ["nonce"] the value it held before the call, whatever
    the wallet's method did to the dict in between; if that method left
    the dict as it got it, the whole dict is as before.  The call does
    return whenever the wallet's method returns and the nonce is an
    integer. *)
Theorem sign_transaction_other_restores_nonce (s : state) (ty : string) (v : value) :
  wclass (wallet s) = OtherWallet ty ->
  request s !! "nonce" = Some v ->
  (forall r s',
      sign_transaction s = (Ok r, s') ->
      request s' !! "nonce" = Some v /\
      (snd (sign_transaction_with_new_nonce (delete "nonce" (request s)) (wallet s))
         = delete "nonce" (request s) ->
       request s' = request s)) /\
  (forall n r w' tx',
      v = VInt n ->
      sign_transaction_with_new_nonce (delete "nonce" (request s)) (wallet s)
        = (Ok r, w', tx') ->
      fst (sign_transaction s) = Ok r).
Proof.
  intros Hc Hv. rewrite (sign_transaction_other s ty v Hc Hv). cbv zeta.
  destruct (sign_transaction_with_new_nonce _ _) as [[res w'] tx']. split.
  - intros r s' Hrun.
    assert (request s' = <["nonce" := v]> tx') as ->.
    { destruct res as [r0|e]; [|discriminate].
      destruct (current_nonce w') as [[cur|]|], v; inversion Hrun; reflexivity. }
    split; [apply lookup_insert_eq|].
    simpl. intros ->. rewrite insert_delete_eq. apply insert_id, Hv.
  - intros n r w0 tx0 -> Heq. inversion Heq; subst.
    destruct (current_nonce w0) as [[cur|]|]; reflexivity.
Qed.

(** C10: with an explicit nonce and no tracked [current_nonce], nothing is
    reconciled.  On a [HotWallet] whose [current_nonce] is [None] the call
    returns what the account signed and leaves the wallet object as it
    was.  On a generic wallet whose [current_nonce] is missing or [None],
    and whose own method does not set it, the call returns what that
    method returned and the wallet object is as that method left it: the
    field is still missing or [None]. *)
Theorem sign_transaction_untracked_nonce (s : state) (v : value) (r : SignedTx) :
  request s !! "nonce" = Some v ->
  (wclass (wallet s) = HotWallet ->
   current_nonce (wallet s) = Some None ->
   account_sign_transaction (request s) = Ok r ->
   sign_transaction s = (Ok r, after_account_sign s (wallet s)) /\
   current_nonce (wallet (snd (sign_transaction s))) = Some None) /\
  (forall ty w' tx',
      wclass (wallet s) = OtherWallet ty ->
      current_nonce (wallet s) = None \/ current_nonce (wallet s) = Some None ->
      sign_transaction_with_new_nonce (delete "nonce" (request s)) (wallet s)
        = (Ok r, w', tx') ->
      current_nonce w' = current_nonce (wallet s) ->
      fst (sign_transaction s) = Ok r /\
      wallet (snd (sign_transaction s)) = w' /\
      current_nonce (wallet (snd (sign_transaction s))) = current_nonce (wallet s)).
Proof.
  intros Hv. split.
  - intros Hc Hn Hr.
    assert (sign_transaction s = (Ok r, after_account_sign s (wallet s))) as ->.
    { unfold sign_transaction, after_account_sign.
      destruct s as [w tx cs]; simpl in *. run with Hv Hc.
      run with Hr Hn. reflexivity. }
    split; [reflexivity|exact Hn].
  - intros ty w' tx' Hc Hn Hr Hkeep.
    rewrite (sign_transaction_other s ty v Hc Hv). cbv zeta. rewrite Hr.
    assert (current_nonce w' = None \/ current_nonce w' = Some None) as Hn'
      by (rewrite Hkeep; exact Hn).
    destruct Hn' as [Hn'|Hn']; rewrite Hn'; simpl; rewrite <- Hkeep; auto.
Qed.

End SignTransaction.

(** The scenario of the specification: cached nonce 5, explicit nonce 10,
    cached nonce 11 afterwards. *)
Lemma sign_transaction_hot_wallet_5_10_11 :
  fst (sign_transaction (E := Ref.collaborators)
         (Ref.a_state HotWallet (Some (Some 5)) (Ref.tx_nonce 10)))
    = Ok (Ref.signed_with "raw_transaction" 10) /\
  current_nonce
    (wallet (snd (sign_transaction (E := Ref.collaborators)
                    (Ref.a_state HotWallet (Some (Some 5)) (Ref.tx_nonce 10)))))
    = Some (Some 11).
Proof.
  destruct (proj1 (sign_transaction_hot_wallet_reconciles (E := Ref.collaborators)
                     (Ref.a_state HotWallet (Some (Some 5)) (Ref.tx_nonce 10))
                     10 5 eq_refl eq_refl eq_refl)
              (Ref.signed_with "raw_transaction" 10) eq_refl)
    as (s' & new & Hrun & Hcache & Hnew & _).
  rewrite Hrun. simpl. rewrite Hcache, Hnew. split; reflexivity.
Defined.

(** A generic wallet whose method writes the nonce it allocated (7) into
    the dict: the caller's 3 is back once the call has returned. *)
Lemma sign_transaction_other_restores_3 :
  request
    (snd (sign_transaction (E := Ref.collaborators)
            (Ref.a_state (OtherWallet "<class 'Vault'>") (Some (Some 7)) (Ref.tx_nonce 3))))
    !! "nonce" = Some (VInt 3).
Proof.
  pose proof (sign_transaction_other_restores_nonce (E := Ref.collaborators)
                (Ref.a_state (OtherWallet "<class 'Vault'>") (Some (Some 7)) (Ref.tx_nonce 3))
                "<class 'Vault'>" (VInt 3) eq_refl eq_refl) as [Hret _].
  exact (proj1 (Hret _ _ (surjective_pairing _))).
Defined.

(** Untracked nonces: a [HotWallet] whose [current_nonce] is [None], and a
    generic wallet without the attribute. *)
Lemma sign_transaction_untracked_nonce_examples :
  current_nonce
    (wallet (snd (sign_transaction (E := Ref.collaborators)
                    (Ref.a_state HotWallet (Some None) (Ref.tx_nonce 10)))))
    = Some None /\
  current_nonce
    (wallet (snd (sign_transaction (E := Ref.untracked)
                    (Ref.a_state (OtherWallet "<class 'Vault'>") None (Ref.tx_nonce 10)))))
    = None.
Proof.
  split.
  - apply (proj1 (sign_transaction_untracked_nonce (E := Ref.collaborators)
                    (Ref.a_state HotWallet (Some None) (Ref.tx_nonce 10))
                    (VInt 10) (Ref.signed_with "raw_transaction" 10) eq_refl));
      reflexivity.
  - apply (proj2 (sign_transaction_untracked_nonce (E := Ref.untracked)
                    (Ref.a_state (OtherWallet "<class 'Vault'>") None (Ref.tx_nonce 10))
                    (VInt 10) (Ref.signed_with "rawTransaction" 0) eq_refl)
             "<class 'Vault'>"
             (Ref.a_wallet (OtherWallet "<class 'Vault'>") None)
             (delete "nonce" (Ref.tx_nonce 10)));
      try reflexivity.
    left. reflexivity.
Defined.

(** ** sign_message *)

Section SignMessage.

Context `{E : Collaborators}.

(** Lines 59-71 compute [encode_defunct] of the canonical bytes and touch
    neither the wallet nor the chain. *)
Lemma signable_of_canonical (msg : message) (s : state) :
  signable_of msg s =
    (match canonical_bytes msg with
     | Ok b => Ok (encode_defunct b)
     | Raise e => Raise e
     end, s).
Proof.
  destruct msg as [str|z|b|ty]; simpl; run; try reflexivity.
  - destruct (String.prefix "0x" str); run; [|reflexivity].
    destruct (HexBytes_str str); reflexivity.
  - destruct (Web3_to_bytes z); reflexivity.
Qed.

Lemma sign_message_hot (msg : message) (b : bytes) (s : state) :
  wclass (wallet s) = HotWallet ->
  canonical_bytes msg = Ok b ->
  sign_message msg s =
    (signature_or_failure (account_sign_message (encode_defunct b)),
     and_then s (AccountSignMessage (encode_defunct b))).
Proof.
  intros Hc Hb. unfold sign_message, bind at 1.
  rewrite signable_of_canonical, Hb. unfold and_then.
  destruct s as [w tx cs]; simpl in *. run with Hc Hc.
  destruct (account_sign_message (encode_defunct b)) as [sig|e]; [reflexivity|].
  unfold signature_or_failure, reraised.
  destruct (is_Exception (exn_cls e)); reflexivity.
Qed.

Lemma sign_message_provider (msg : message) (b : bytes) (s : state) :
  wclass (wallet s) = Web3ProviderWallet ->
  canonical_bytes msg = Ok b ->
  sign_message msg s =
    (Raise (sign_failed
              (Exn NotImplementedError
                 "Message signing not implemented for wallet type: Web3ProviderWallet"
                 None)), s).
Proof.
  intros Hc Hb. unfold sign_message, bind at 1.
  rewrite signable_of_canonical, Hb.
  destruct s as [w tx cs]; simpl in *. run with Hc Hc. reflexivity.
Qed.

Lemma sign_message_other (msg : message) (b : bytes) (ty : string) (s : state) :
  wclass (wallet s) = OtherWallet ty ->
  canonical_bytes msg = Ok b ->
  sign_message msg s =
    if has_sign_message (wallet s) then
      let '(res, w') := wallet_sign_message (encode_defunct b) (wallet s) in
      (match res with
       | Ok sm => Ok (messageHash sm)
       | Raise e => Raise (reraised sign_failed e)
       end,
       {| wallet := w'; request := request s;
          calls := calls s ++ [WalletSignMessage (encode_defunct b)] |})
    else
      (Raise (sign_failed
                (Exn NotImplementedError
                   ("Message signing not implemented for wallet type: " +:+ ty)
                   None)), s).
Proof.
  intros Hc Hb. unfold sign_message, bind at 1.
  rewrite signable_of_canonical, Hb.
  destruct s as [w tx cs]; simpl in *. run with Hc Hc.
  destruct (has_sign_message w); run; [|reflexivity].
  destruct (wallet_sign_message (encode_defunct b) w) as [[sm|e] w'];
    [reflexivity|].
  unfold reraised. destruct (is_Exception (exn_cls e)); reflexivity.
Qed.

(** C9: on a [HotWallet], two messages with the same canonical bytes are
    signed alike: the call returns the same signature (or the same
    failure) and leaves the same state, and that outcome is the account's
    answer to [encode_defunct] of those bytes. *)
Theorem sign_message_hot_wallet_depends_on_bytes
    (m1 m2 : message) (b : bytes) (s : state) :
  wclass (wallet s) = HotWallet ->
  canonical_bytes m1 = Ok b ->
  canonical_bytes m2 = Ok b ->
  sign_message m1 s = sign_message m2 s /\
  fst (sign_message m1 s)
    = signature_or_failure (account_sign_message (encode_defunct b)).
Proof.
  intros Hc H1 H2.
  rewrite (sign_message_hot m1 b s Hc H1), (sign_message_hot m2 b s Hc H2).
  split; reflexivity.
Qed.

End SignMessage.

(** The string "hi", its hex form, its bytes and the integer 0x6869 are
    signed alike. *)
Lemma sign_message_hi_in_four_forms :
  let s := Ref.a_state HotWallet (Some (Some 5)) Ref.tx_plain in
  sign_message (E := Ref.collaborators) (MStr "hi") s
    = sign_message (E := Ref.collaborators) (MStr "0x6869") s /\
  sign_message (E := Ref.collaborators) (MBytes [x68; x69]) s
    = sign_message (E := Ref.collaborators) (MInt 26729) s /\
  sign_message (E := Ref.collaborators) (MStr "hi") s
    = sign_message (E := Ref.collaborators) (MBytes [x68; x69]) s.
Proof.
  intros s. split; [|split].
  - apply (sign_message_hot_wallet_depends_on_bytes (E := Ref.collaborators)
             (MStr "hi") (MStr "0x6869") [x68; x69] s); reflexivity.
  - apply (sign_message_hot_wallet_depends_on_bytes (E := Ref.collaborators)
             (MBytes [x68; x69]) (MInt 26729) [x68; x69] s); reflexivity.
  - apply (sign_message_hot_wallet_depends_on_bytes (E := Ref.collaborators)
             (MStr "hi") (MBytes [x68; x69]) [x68; x69] s); reflexivity.
Defined.

(** C3 (the code departs from it): on a [Web3ProviderWallet],
    [sign_message "hello"] makes no outside call and fails, but what
    reaches the caller is the [ValueError] of line 92 with the
    [NotImplementedError] of line 82 as its cause, not that
    [NotImplementedError] itself. *)
Theorem sign_message_provider_wallet_raises_ValueError :
  let s := Ref.a_state Web3ProviderWallet (Some (Some 5)) Ref.tx_plain in
  sign_message (E := Ref.collaborators) (MStr "hello") s
    = (Raise
         (Exn ValueError
            "Failed to sign message: Message signing not implemented for wallet type: Web3ProviderWallet"
            (Some (Exn NotImplementedError
                     "Message signing not implemented for wallet type: Web3ProviderWallet"
                     None))),
       s) /\
  exn_cls (Exn ValueError
             "Failed to sign message: Message signing not implemented for wallet type: Web3ProviderWallet"
             None) <> NotImplementedError.
Proof.
  intros s. split; [|discriminate].
  rewrite (sign_message_provider (E := Ref.collaborators) (MStr "hello")
             (Ref.str_encode_utf8 "hello") s eq_refl eq_refl).
  reflexivity.
Qed.

(** C4 (the code departs from it): on a generic wallet with a
    [sign_message] method, the adapter returns the [messageHash] of what
    that method returned, not its [signature]. *)
Theorem sign_message_other_wallet_returns_messageHash :
  let s := Ref.a_state (OtherWallet "<class 'Vault'>") None Ref.tx_plain in
  let signed := Ref.toy_sign (Ref.encode_defunct [x68; x69]) in
  fst (wallet_sign_message (Collaborators := Ref.collaborators)
         (Ref.encode_defunct [x68; x69]) (wallet s)) = Ok signed /\
  fst (sign_message (E := Ref.collaborators) (MStr "hi") s) = Ok (messageHash signed) /\
  messageHash signed <> signature signed.
Proof.
  intros s signed. split; [reflexivity|]. split; [|discriminate].
  rewrite (sign_message_other (E := Ref.collaborators) (MStr "hi") [x68; x69]
             "<class 'Vault'>" s eq_refl eq_refl).
  reflexivity.
Qed.

(** With no [sign_message] method on the generic wallet, the
    [NotImplementedError] of line 89 is wrapped in the same way. *)
Lemma sign_message_other_wallet_without_method :
  let s := {| wallet := Ref.bare_wallet (OtherWallet "<class 'Vault'>") None;
              request := Ref.tx_plain; calls := [] |} in
  sign_message (E := Ref.collaborators) (MStr "hi") s
    = (Raise (sign_failed
                (Exn NotImplementedError
                   "Message signing not implemented for wallet type: <class 'Vault'>"
                   None)), s).
Proof.
  intros s.
  rewrite (sign_message_other (E := Ref.collaborators) (MStr "hi") [x68; x69]
             "<class 'Vault'>" s eq_refl eq_refl).
  reflexivity.
Qed.

(** ** send_transaction *)

Section SendTransaction.

Context `{E : Collaborators}.

(** Lines 154-156: the copy without its ["from"] key. *)
Lemma copy_without_from (tx : TxParams) :
  match tx !! "from" with
  | Some _ => delete "from" tx
  | None => tx
  end = delete "from" tx.
Proof.
  destruct (tx !! "from") eqn:Hfrom; [reflexivity|].
  symmetry. apply delete_id, Hfrom.
Qed.

(** The [Web3ProviderWallet] path (lines 152-163), in full. *)
Lemma send_transaction_provider (s : state) :
  wclass (wallet s) = Web3ProviderWallet ->
  send_transaction s =
    let tx_copy := delete "from" (request s) in
    match request s !! "nonce", has_allocate_nonce (wallet s) with
    | None, true =>
        let '(res, w') := allocate_nonce (wallet s) in
        match res with
        | Ok n =>
            let tx_copy := <["nonce" := VInt n]> tx_copy in
            (eth_send_transaction tx_copy,
             {| wallet := w'; request := request s;
                calls := (calls s ++ [WalletAllocateNonce]) ++ [EthSendTransaction tx_copy] |})
        | Raise e =>
            (Raise e, {| wallet := w'; request := request s;
                         calls := calls s ++ [WalletAllocateNonce] |})
        end
    | _, _ =>
        (eth_send_transaction tx_copy, and_then s (EthSendTransaction tx_copy))
    end.
Proof.
  intros Hc. unfold send_transaction, and_then.
  destruct s as [w tx cs]; simpl in *. run with Hc Hc.
  rewrite copy_without_from.
  assert (delete "from" tx !! "nonce" = tx !! "nonce") as ->
      by (apply lookup_delete_ne; discriminate).
  destruct (tx !! "nonce") as [v|]; run; [reflexivity|].
  destruct (has_allocate_nonce w); run; [|reflexivity].
  destruct (allocate_nonce w) as [[n|e] w']; reflexivity.
Qed.

(** C7: on a [Web3ProviderWallet], whatever [send_transaction] hands to
    [web3.eth.send_transaction] has no ["from"] key and agrees with the
    caller's dict on every key other than ["from"] and ["nonce"]; its
    ["nonce"] is the caller's, or, when the caller gave none and the wallet
    has [allocate_nonce], the one that method returned.  Nothing is sent
    raw, and the caller's dict is not changed.  The submission does take
    place, once: when the request has a nonce or the wallet has no
    allocator, with exactly the caller's fields without ["from"]; when the
    request has no nonce and the allocator returns [n], after that one
    call of the allocator, with those fields and ["nonce"] set to [n]; the
    call returns what the chain client returns.  Only when the allocator
    raises is nothing submitted, and its exception leaves the call. *)
Theorem send_transaction_provider_payload (s : state) :
  wclass (wallet s) = Web3ProviderWallet ->
  request (snd (send_transaction s)) = request s /\
  (exists new,
      calls (snd (send_transaction s)) = calls s ++ new /\
      (forall raw, ~ In (EthSendRawTransaction raw) new) /\
      (forall m, In (EthSendTransaction m) new ->
         m !! "from" = None /\
         (forall k, k <> "from" -> k <> "nonce" -> m !! k = request s !! k) /\
         (m !! "nonce" = request s !! "nonce" \/
          (request s !! "nonce" = None /\
           has_allocate_nonce (wallet s) = true /\
           exists n, fst (allocate_nonce (wallet s)) = Ok n /\
                     m !! "nonce" = Some (VInt n))))) /\
  (is_Some (request s !! "nonce") \/ has_allocate_nonce (wallet s) = false ->
   send_transaction s =
     (eth_send_transaction (delete "from" (request s)),
      and_then s (EthSendTransaction (delete "from" (request s))))) /\
  (forall n w',
      request s !! "nonce" = None ->
      has_allocate_nonce (wallet s) = true ->
      allocate_nonce (wallet s) = (Ok n, w') ->
      send_transaction s =
        (eth_send_transaction (<["nonce" := VInt n]> (delete "from" (request s))),
         {| wallet := w'; request := request s;
            calls := calls s
                     ++ [WalletAllocateNonce;
                         EthSendTransaction
                           (<["nonce" := VInt n]> (delete "from" (request s)))] |})) /\
  (forall e w',
      request s !! "nonce" = None ->
      has_allocate_nonce (wallet s) = true ->
      allocate_nonce (wallet s) = (Raise e, w') ->
      send_transaction s =
        (Raise e, {| wallet := w'; request := request s;
                     calls := calls s ++ [WalletAllocateNonce] |})).
Proof.
  intros Hc. rewrite (send_transaction_provider s Hc). cbv zeta.
  assert (forall m, m = delete "from" (request s) ->
            m !! "from" = None /\
            (forall k, k <> "from" -> k <> "nonce" -> m !! k = request s !! k) /\
            m !! "nonce" = request s !! "nonce") as Hplain.
  { intros m ->. split; [apply lookup_delete_eq|].
    split; [intros k Hk _|]; apply lookup_delete_ne; congruence. }
  assert (forall m : TxParams,
             (exists new : list event,
                 calls s ++ [EthSendTransaction m] = calls s ++ new /\
                 (forall raw, ~ In (EthSendRawTransaction raw) new) /\
                 (forall m', In (EthSendTransaction m') new -> m' = m))) as Hone.
  { intros m. exists [EthSendTransaction m]. split; [reflexivity|].
    split; [intros raw [Hin|[]]; discriminate|].
    intros m' [Hin|[]]. congruence. }
  destruct (request s !! "nonce") as [v|] eqn:Hnonce.
  - split; [reflexivity|]. split; [|split; [reflexivity|split; discriminate]]. simpl.
    destruct (Hone (delete "from" (request s))) as (new & Hnew & Hraw & Hsent).
    exists new. split; [exact Hnew|]. split; [exact Hraw|].
    intros m Hin. destruct (Hplain m (Hsent m Hin)) as (? & ? & ?). auto.
  - destruct (has_allocate_nonce (wallet s)) eqn:Halloc.
    + destruct (allocate_nonce (wallet s)) as [[n|e] w'] eqn:Hcall; simpl.
      * split; [reflexivity|]. split; [|split; [|split]].
        2:{ intros [[? ?]|?]; discriminate. }
        2:{ intros n0 w0 _ _ [= <- <-]. rewrite <- app_assoc. reflexivity. }
        2:{ discriminate. }
        exists [WalletAllocateNonce;
                EthSendTransaction (<["nonce" := VInt n]> (delete "from" (request s)))].
        split; [rewrite <- app_assoc; reflexivity|].
        split; [intros raw [Hin|[Hin|[]]]; discriminate|].
        intros m [Hin|[Hin|[]]]; [discriminate|]. inversion Hin; subst m.
        split; [rewrite lookup_insert_ne by discriminate; apply lookup_delete_eq|].
        split.
        -- intros k Hk Hk'. rewrite lookup_insert_ne by congruence.
           apply lookup_delete_ne. congruence.
        -- right. repeat split. exists n. split; [reflexivity|].
           apply lookup_insert_eq.
      * split; [reflexivity|]. split; [|split; [|split]].
        2:{ intros [[? ?]|?]; discriminate. }
        2:{ discriminate. }
        2:{ intros e0 w0 _ _ [= <- <-]. reflexivity. }
        exists [WalletAllocateNonce]. split; [reflexivity|].
        split; [intros raw [Hin|[]]; discriminate|].
        intros m [Hin|[]]. discriminate.
    + split; [reflexivity|]. split; [|split; [reflexivity|split; discriminate]]. simpl.
      destruct (Hone (delete "from" (request s))) as (new & Hnew & Hraw & Hsent).
      exists new. split; [exact Hnew|]. split; [exact Hraw|].
      intros m Hin. destruct (Hplain m (Hsent m Hin)) as (? & ? & ?). auto.
Qed.

(** X11: the order of lines 170-177: [rawTransaction] wins over
    [raw_transaction]; the [isinstance] test is reached only by an object
    without a [rawTransaction] attribute, on which reading it fails. *)
Lemma extract_raw_order (signed_tx : SignedTx) (raw : bytes) :
  extract_raw signed_tx = Ok raw <->
  stx_attrs signed_tx !! "rawTransaction" = Some raw \/
  (stx_attrs signed_tx !! "rawTransaction" = None /\
   stx_attrs signed_tx !! "raw_transaction" = Some raw).
Proof.
  unfold extract_raw.
  destruct (stx_attrs signed_tx !! "rawTransaction") as [r1|].
  - split; [intros [= ->]; auto|]. intros [[= ->]|[[=] _]]. reflexivity.
  - destruct (stx_attrs signed_tx !! "raw_transaction") as [r2|].
    + split; [intros [= ->]; auto|]. intros [[=]|[_ [= ->]]]. reflexivity.
    + destruct (stx_is_SignedTransactionWithNonce signed_tx);
        (split; [discriminate|intros [[=]|[_ [=]]]]).
Qed.

(** Every other wallet (lines 166-182): sign, extract, send raw, with any
    exception on the way wrapped by the [except] clause. *)
Lemma send_transaction_signing (s : state) :
  wclass (wallet s) <> Web3ProviderWallet ->
  send_transaction s =
    match sign_transaction s with
    | (Ok signed_tx, s1) =>
        match extract_raw signed_tx with
        | Ok raw_tx =>
            (match eth_send_raw_transaction raw_tx with
             | Ok h => Ok h
             | Raise e => Raise (reraised send_failed e)
             end, and_then s1 (EthSendRawTransaction raw_tx))
        | Raise e => (Raise (reraised send_failed e), s1)
        end
    | (Raise e, s1) => (Raise (reraised send_failed e), s1)
    end.
Proof.
  intros Hc. unfold send_transaction, bind at 1, get_wallet.
  assert (forall (k : M bytes),
             match wclass (wallet s) with
             | Web3ProviderWallet => k
             | _ =>
                 try_except
                   (signed_tx <- sign_transaction ;;
                    raw_tx <- lift (extract_raw signed_tx) ;;
                    call_eth_send_raw_transaction raw_tx)
                   (fun e => raise (send_failed e))
             end s
             = try_except
                 (signed_tx <- sign_transaction ;;
                  raw_tx <- lift (extract_raw signed_tx) ;;
                  call_eth_send_raw_transaction raw_tx)
                 (fun e => raise (send_failed e)) s) as ->
      by (intros k; destruct (wclass (wallet s)); congruence).
  unfold try_except, bind at 1, reraised.
  destruct (sign_transaction s) as [[signed_tx|e] s1];
    [|destruct (is_Exception (exn_cls e)); reflexivity].
  run. destruct (extract_raw signed_tx) as [raw|e];
    [|destruct (is_Exception (exn_cls e)); reflexivity].
  unfold and_then. destruct s1 as [w1 tx1 cs1].
  destruct (eth_send_raw_transaction raw) as [h|e]; [reflexivity|].
  destruct (is_Exception (exn_cls e)); reflexivity.
Qed.

(** X10: on every wallet but [Web3ProviderWallet], [send_transaction]
    raises exactly when something raises inside its [try]: in
    [sign_transaction], in the extraction of the raw bytes or in
    [web3.eth.send_raw_transaction].  If that exception [e0] derives from
    [Exception], what leaves is the [ValueError] of line 182, whose text is
    "Failed to send transaction: " and then the text of [e0], and whose
    cause is [e0]; if it does not ([KeyboardInterrupt], [SystemExit]), [e0]
    itself leaves.  Nothing else can leave. *)
Lemma send_transaction_signing_wraps (s : state) (e : exn) :
  wclass (wallet s) <> Web3ProviderWallet ->
  fst (send_transaction s) = Raise e <->
  exists e0,
    raised_in_send_transaction s e0 /\
    e = if is_Exception (exn_cls e0)
        then Exn ValueError ("Failed to send transaction: " +:+ exn_msg e0) (Some e0)
        else e0.
Proof.
  intros Hc. rewrite (send_transaction_signing s Hc).
  unfold raised_in_send_transaction, reraised, send_failed.
  destruct (sign_transaction s) as [[signed_tx|e1] s1]; simpl.
  - destruct (extract_raw signed_tx) as [raw|e1]; simpl.
    + destruct (eth_send_raw_transaction raw) as [h|e1]; split.
      * discriminate.
      * intros (e0 & [=] & _).
      * intros [= <-]. eauto.
      * intros (e0 & [= <-] & ->). reflexivity.
    + split; [intros [= <-]; eauto|intros (e0 & -> & ->); reflexivity].
  - split; [intros [= <-]; eauto|intros (e0 & -> & ->); reflexivity].
Qed.

(** C8: on every wallet but [Web3ProviderWallet], once [sign_transaction]
    has returned an object, [send_transaction] takes its [rawTransaction]
    attribute if it has one, else its [raw_transaction] attribute if it has
    one, and calls [web3.eth.send_raw_transaction] once, with exactly those
    bytes, returning the hash; an object with neither attribute that is no
    [SignedTransactionWithNonce] makes the call fail, nothing being sent,
    with the "Unknown signed transaction format" [ValueError], which
    arrives as the cause of the [ValueError] of line 182. *)
Theorem send_transaction_sends_extracted_raw
    (s s1 : state) (signed_tx : SignedTx) :
  wclass (wallet s) <> Web3ProviderWallet ->
  sign_transaction s = (Ok signed_tx, s1) ->
  (forall raw h,
      stx_attrs signed_tx !! "rawTransaction" = Some raw ->
      eth_send_raw_transaction raw = Ok h ->
      send_transaction s = (Ok h, and_then s1 (EthSendRawTransaction raw))) /\
  (forall raw h,
      stx_attrs signed_tx !! "rawTransaction" = None ->
      stx_attrs signed_tx !! "raw_transaction" = Some raw ->
      eth_send_raw_transaction raw = Ok h ->
      send_transaction s = (Ok h, and_then s1 (EthSendRawTransaction raw))) /\
  (forall raw,
      extract_raw signed_tx = Ok raw ->
      calls (snd (send_transaction s)) = calls s1 ++ [EthSendRawTransaction raw]) /\
  (stx_attrs signed_tx !! "rawTransaction" = None ->
   stx_attrs signed_tx !! "raw_transaction" = None ->
   stx_is_SignedTransactionWithNonce signed_tx = false ->
   send_transaction s =
     (Raise (send_failed
               (Exn ValueError
                  ("Unknown signed transaction format: " +:+ stx_type signed_tx)
                  None)), s1)).
Proof.
  intros Hc Hsign. rewrite (send_transaction_signing s Hc), Hsign.
  unfold extract_raw. repeat split.
  - intros raw h -> ->. reflexivity.
  - intros raw h -> -> ->. reflexivity.
  - intros raw Hraw. rewrite Hraw. reflexivity.
  - intros -> -> ->. reflexivity.
Qed.

End SendTransaction.

(** The scenario of the specification: no nonce in the request, no
    allocator on the wallet; the chain client gets the caller's fields
    without ["from"], and no nonce.  With an allocator at nonce 5, it gets
    them with nonce 5, after the one call of the allocator. *)
Lemma send_transaction_provider_no_allocator :
  let s := {| wallet := Ref.bare_wallet Web3ProviderWallet None;
              request := Ref.tx_plain; calls := [] |} in
  let s5 := Ref.a_state Web3ProviderWallet (Some (Some 5)) Ref.tx_plain in
  (send_transaction (E := Ref.collaborators) s
     = (Ok [xaa], and_then s (EthSendTransaction (delete "from" Ref.tx_plain))) /\
   delete "from" Ref.tx_plain !! "nonce" = None /\
   delete "from" Ref.tx_plain !! "from" = None) /\
  send_transaction (E := Ref.collaborators) s5
    = (Ok [xaa],
       {| wallet := Ref.a_wallet Web3ProviderWallet (Some (Some 6));
          request := Ref.tx_plain;
          calls := [WalletAllocateNonce;
                    EthSendTransaction
                      (<["nonce" := VInt 5]> (delete "from" Ref.tx_plain))] |}).
Proof.
  intros s s5. split.
  - split; [|split; reflexivity].
    apply (proj1 (proj2 (proj2 (send_transaction_provider_payload
                                  (E := Ref.collaborators) s eq_refl)))).
    right. reflexivity.
  - exact (proj1 (proj2 (proj2 (proj2 (send_transaction_provider_payload
                                          (E := Ref.collaborators) s5 eq_refl))))
             5 (Ref.a_wallet Web3ProviderWallet (Some (Some 6)))
             eq_refl eq_refl eq_refl).
Defined.

(** A [HotWallet] whose account returns an object with [raw_transaction]
    only: those bytes are what goes to [send_raw_transaction]. *)
Lemma send_transaction_hot_wallet_sends_raw :
  let s := Ref.a_state HotWallet (Some (Some 5)) (Ref.tx_nonce 10) in
  let raw := x02 :: Ref.be_bytes 32 10 [] in
  send_transaction (E := Ref.collaborators) s
    = (Ok [xbb],
       and_then (snd (sign_transaction (E := Ref.collaborators) s))
         (EthSendRawTransaction raw)).
Proof.
  intros s raw.
  assert (wclass (wallet s) <> Web3ProviderWallet) as Hc by discriminate.
  apply (proj1 (proj2 (send_transaction_sends_extracted_raw (E := Ref.collaborators)
                         s (snd (sign_transaction (E := Ref.collaborators) s))
                         (Ref.signed_with "raw_transaction" 10) Hc eq_refl)));
    reflexivity.
Defined.

(** C5 (the code departs from it): on a [Web3ProviderWallet] the
    exception of the chain client leaves [send_transaction] as it is, a
    [ConnectionError] without cause, not wrapped in the [ValueError] of
    line 182; a [HotWallet] in front of the same chain client gets the
    wrapped one. *)
Theorem send_transaction_provider_wallet_raises_unwrapped :
  let failure := Exn (OtherError "ConnectionError") "connection refused" None in
  eth_send_transaction (Collaborators := Ref.offline)
    (delete "from" (Ref.tx_nonce 10)) = Raise failure /\
  fst (send_transaction (E := Ref.offline)
         (Ref.a_state Web3ProviderWallet (Some (Some 5)) (Ref.tx_nonce 10)))
    = Raise failure /\
  fst (send_transaction (E := Ref.offline)
         (Ref.a_state HotWallet (Some (Some 5)) (Ref.tx_nonce 10)))
    = Raise (send_failed failure) /\
  failure <> send_failed failure.
Proof.
  intros failure. split; [reflexivity|]. split; [|split; [|discriminate]].
  - rewrite (send_transaction_provider (E := Ref.offline)
               (Ref.a_state Web3ProviderWallet (Some (Some 5)) (Ref.tx_nonce 10))
               eq_refl).
    reflexivity.
  - assert (wclass (wallet (Ref.a_state HotWallet (Some (Some 5)) (Ref.tx_nonce 10)))
            <> Web3ProviderWallet) as Hc by discriminate.
    rewrite (send_transaction_signing (E := Ref.offline) _ Hc). reflexivity.
Qed.

(** ** current_nonce never goes down *)

Section Monotone.

Context `{E : Collaborators}.

Lemma nonce_le_refl (w : Wallet) : nonce_le w w.
Proof. intros c Hc. exists c. split; [exact Hc|lia]. Qed.

Lemma nonce_le_trans (w1 w2 w3 : Wallet) :
  nonce_le w1 w2 -> nonce_le w2 w3 -> nonce_le w1 w3.
Proof.
  intros H12 H23 c Hc.
  destruct (H12 c Hc) as (c2 & Hc2 & Hle2).
  destruct (H23 c2 Hc2) as (c3 & Hc3 & Hle3).
  exists c3. split; [exact Hc3|lia].
Qed.

(** The one write the adapter makes: [max] of something with the value
    just read. *)
Lemma nonce_le_set_max (n1 cur : Z) (w : Wallet) :
  current_nonce w = Some (Some cur) ->
  nonce_le w (set_current_nonce (Z.max n1 cur) w).
Proof.
  intros Hcur c Hc. rewrite Hcur in Hc. injection Hc as <-.
  exists (Z.max n1 cur). split; [reflexivity|lia].
Qed.

Lemma monotone_ret {A} (a : A) : monotone (ret a).
Proof. intros s. apply nonce_le_refl. Qed.

Lemma monotone_raise {A} (e : exn) : monotone (raise (A := A) e).
Proof. intros s. apply nonce_le_refl. Qed.

Lemma monotone_lift {A} (r : result A) : monotone (lift r).
Proof. intros s. apply nonce_le_refl. Qed.

Lemma monotone_get_wallet : monotone get_wallet.
Proof. intros s. apply nonce_le_refl. Qed.

Lemma monotone_get_request : monotone get_request.
Proof. intros s. apply nonce_le_refl. Qed.

Lemma monotone_put_request (tx : TxParams) : monotone (put_request tx).
Proof. intros s. apply nonce_le_refl. Qed.

Lemma monotone_emit (ev : event) : monotone (emit ev).
Proof. intros s. apply nonce_le_refl. Qed.

Lemma monotone_bind {A B} (c : M A) (k : A -> M B) :
  monotone c -> (forall a, monotone (k a)) -> monotone (bind c k).
Proof.
  intros Hc Hk s. unfold bind. specialize (Hc s).
  destruct (c s) as [[a|e] s1]; simpl in *; [|exact Hc].
  eapply nonce_le_trans; [exact Hc|apply Hk].
Qed.

Lemma monotone_try_except {A} (c : M A) (h : exn -> M A) :
  monotone c -> (forall e, monotone (h e)) -> monotone (try_except c h).
Proof.
  intros Hc Hh s. unfold try_except. specialize (Hc s).
  destruct (c s) as [[a|e] s1]; simpl in *; [exact Hc|].
  destruct (is_Exception (exn_cls e)); [|exact Hc].
  eapply nonce_le_trans; [exact Hc|apply Hh].
Qed.

Lemma monotone_py_add1 (v : value) : monotone (py_add1 v).
Proof. destruct v; intros st; apply nonce_le_refl. Qed.

Lemma monotone_getattr_current_nonce : monotone getattr_current_nonce.
Proof.
  intros s. unfold getattr_current_nonce. run.
  destruct s as [w tx cs]. destruct (current_nonce w); apply nonce_le_refl.
Qed.

Lemma monotone_getitem (k : string) : monotone (getitem k).
Proof.
  intros s. unfold getitem. run.
  destruct s as [w tx cs]. destruct (tx !! k); apply nonce_le_refl.
Qed.

Lemma monotone_pop (k : string) : monotone (pop k).
Proof.
  intros s. unfold pop. run.
  destruct s as [w tx cs]. destruct (tx !! k); apply nonce_le_refl.
Qed.

Lemma monotone_setitem (k : string) (v : value) : monotone (setitem k v).
Proof. intros s. destruct s as [w tx cs]. apply nonce_le_refl. Qed.

(** Lines 117 and 131: [current_nonce = max(n1, current_nonce)]. *)
Lemma monotone_max_with_current (n1 : Z) (e : exn) :
  monotone
    (cur <- getattr_current_nonce ;;
     match cur with
     | Some cur => setattr_current_nonce (Z.max n1 cur)
     | None => raise e
     end).
Proof.
  intros s. destruct s as [w tx cs]. run.
  destruct (current_nonce w) as [[cur|]|] eqn:Hcur; simpl;
    try apply nonce_le_refl.
  apply nonce_le_set_max, Hcur.
Qed.

Lemma monotone_call_account_sign_message (m : SignableMessage) :
  monotone (call_account_sign_message m).
Proof. intros s. destruct s as [w tx cs]. apply nonce_le_refl. Qed.

Lemma monotone_call_account_sign_transaction (tx : TxParams) :
  monotone (call_account_sign_transaction tx).
Proof. intros s. destruct s as [w tx' cs]. apply nonce_le_refl. Qed.

Lemma monotone_call_eth_send_transaction (tx : TxParams) :
  monotone (call_eth_send_transaction tx).
Proof. intros s. destruct s as [w tx' cs]. apply nonce_le_refl. Qed.

Lemma monotone_call_eth_send_raw_transaction (raw : bytes) :
  monotone (call_eth_send_raw_transaction raw).
Proof. intros s. destruct s as [w tx' cs]. apply nonce_le_refl. Qed.

Hypothesis wallet_ok : wallet_keeps_nonce.

Lemma monotone_call_wallet_sign_message (m : SignableMessage) :
  monotone (call_wallet_sign_message m).
Proof.
  intros s. destruct s as [w tx cs]. unfold call_wallet_sign_message. run.
  pose proof (keeps_sign_message wallet_ok m w) as Hw.
  destruct (wallet_sign_message m w) as [r w']. exact Hw.
Qed.

Lemma monotone_call_sign_transaction_with_new_nonce :
  monotone call_sign_transaction_with_new_nonce.
Proof.
  intros s. destruct s as [w tx cs].
  unfold call_sign_transaction_with_new_nonce. run.
  pose proof (keeps_sign_transaction_with_new_nonce wallet_ok tx w) as Hw.
  destruct (sign_transaction_with_new_nonce tx w) as [[r w'] tx']. exact Hw.
Qed.

Lemma monotone_call_allocate_nonce : monotone call_allocate_nonce.
Proof.
  intros s. destruct s as [w tx cs]. unfold call_allocate_nonce. run.
  pose proof (keeps_allocate_nonce wallet_ok w) as Hw.
  destruct (allocate_nonce w) as [r w']. exact Hw.
Qed.

End Monotone.

Create HintDb mono.

#[export] Hint Resolve
  monotone_ret monotone_raise monotone_lift monotone_get_wallet
  monotone_get_request monotone_put_request monotone_emit monotone_py_add1
  monotone_getattr_current_nonce monotone_getitem monotone_pop
  monotone_setitem monotone_max_with_current
  monotone_call_account_sign_message monotone_call_account_sign_transaction
  monotone_call_eth_send_transaction monotone_call_eth_send_raw_transaction
  monotone_call_wallet_sign_message
  monotone_call_sign_transaction_with_new_nonce monotone_call_allocate_nonce
  : mono.

(** Walk a computation: sequencing and [try] by their lemmas, every
    branching by cases, leaves from the hint base. *)
Ltac mono :=
  repeat first
    [ solve [auto with mono]
    | apply monotone_max_with_current
    | apply monotone_bind; [|intros ?]
    | apply monotone_try_except; [|intros ?]
    | match goal with
      | |- monotone (match ?x with _ => _ end) => destruct x
      | |- monotone (let _ := ?x in _) => cbv zeta
      end ].

Section MonotoneAdapter.

Context `{E : Collaborators}.
Hypothesis wallet_ok : wallet_keeps_nonce.

Lemma monotone_sign_transaction : monotone sign_transaction.
Proof. unfold sign_transaction. mono. Qed.

Lemma monotone_sign_message (msg : message) : monotone (sign_message msg).
Proof. unfold sign_message, signable_of. mono. Qed.

Lemma monotone_send_transaction : monotone send_transaction.
Proof.
  pose proof monotone_sign_transaction.
  unfold send_transaction. mono.
Qed.

End MonotoneAdapter.

(** C2: provided the wallet's own methods never lower a set
    [current_nonce], none of [sign_message], [sign_transaction] and
    [send_transaction] does: from any state in which [current_nonce] holds
    an integer [c], the call, whether it returns or raises, leaves
    [current_nonce] holding an integer that is at least [c]. *)
Theorem adapter_never_lowers_current_nonce `{E : Collaborators} :
  wallet_keeps_nonce ->
  forall (s : state) (c : Z),
    current_nonce (wallet s) = Some (Some c) ->
    (forall msg, exists c',
        current_nonce (wallet (snd (sign_message msg s))) = Some (Some c') /\ c <= c') /\
    (exists c',
        current_nonce (wallet (snd (sign_transaction s))) = Some (Some c') /\ c <= c') /\
    (exists c',
        current_nonce (wallet (snd (send_transaction s))) = Some (Some c') /\ c <= c').
Proof.
  intros Hw s c Hc. repeat split.
  - intros msg. exact (monotone_sign_message Hw msg s c Hc).
  - exact (monotone_sign_transaction Hw s c Hc).
  - exact (monotone_send_transaction Hw s c Hc).
Qed.

(** The reference wallet only ever increments its [current_nonce]. *)
Lemma ref_wallet_keeps_nonce : wallet_keeps_nonce (E := Ref.collaborators).
Proof.
  assert (forall w, nonce_le w (snd (Ref.allocate_nonce w))) as Halloc.
  { intros w c Hc. unfold Ref.allocate_nonce. rewrite Hc. simpl.
    exists (c + 1). split; [reflexivity|lia]. }
  split; simpl.
  - intros m w. apply nonce_le_refl.
  - intros tx w. unfold Ref.sign_transaction_with_new_nonce.
    destruct (tx !! "nonce"); [apply nonce_le_refl|].
    specialize (Halloc w). destruct (Ref.allocate_nonce w) as [[n|e] w']; exact Halloc.
  - exact Halloc.
Defined.

(** From a cached nonce of 5, with an explicit nonce of 3 in the request,
    no method of the adapter leaves less than 5. *)
Lemma adapter_never_lowers_5 :
  let s := Ref.a_state HotWallet (Some (Some 5)) (Ref.tx_nonce 3) in
  (forall msg, exists c',
      current_nonce (wallet (snd (sign_message (E := Ref.collaborators) msg s)))
        = Some (Some c') /\ 5 <= c') /\
  (exists c',
      current_nonce (wallet (snd (sign_transaction (E := Ref.collaborators) s)))
        = Some (Some c') /\ 5 <= c') /\
  (exists c',
      current_nonce (wallet (snd (send_transaction (E := Ref.collaborators) s)))
        = Some (Some c') /\ 5 <= c').
Proof.
  intros s.
  exact (adapter_never_lowers_current_nonce (E := Ref.collaborators)
           ref_wallet_keeps_nonce s 5 eq_refl).
Defined.

(** ** Further properties of sign_message *)

Section SignMessageMore.

Context `{E : Collaborators}.

(** X1: a message that cannot be turned into bytes never reaches a wallet:
    an unsupported type raises the [ValueError] of line 71, a hex string
    that [HexBytes] rejects or an integer that [Web3.to_bytes] rejects
    raises that library's exception, in each case as it is (lines 59-71
    are outside the [try]), on every wallet class, with no outside call and
    no change of state. *)
Theorem sign_message_conversion_failure (s : state) :
  (forall ty,
      sign_message (MOther ty) s
        = (Raise (Exn ValueError ("Unsupported message type: " +:+ ty) None), s)) /\
  (forall str e,
      String.prefix "0x" str = true ->
      HexBytes_str str = Raise e ->
      sign_message (MStr str) s = (Raise e, s)) /\
  (forall z e,
      Web3_to_bytes z = Raise e ->
      sign_message (MInt z) s = (Raise e, s)).
Proof.
  split; [|split].
  - intros ty. unfold sign_message, bind at 1.
    rewrite signable_of_canonical. reflexivity.
  - intros str e Hpre Hhex. unfold sign_message, bind at 1.
    rewrite signable_of_canonical. simpl. rewrite Hpre, Hhex. reflexivity.
  - intros z e Hz. unfold sign_message, bind at 1.
    rewrite signable_of_canonical. simpl. rewrite Hz. reflexivity.
Qed.

(** X2: once the message has been turned into bytes, [sign_message]
    raises exactly when something raises inside its [try]: the account or
    the wallet's own method, or line 82 or 89.  If that exception [e0]
    derives from [Exception], what leaves is the [ValueError] of line 92,
    whose text is "Failed to sign message: " and then the text of [e0],
    and whose cause is [e0]; if it does not ([KeyboardInterrupt],
    [SystemExit]), [e0] itself leaves.  Nothing else can leave, on any
    wallet class. *)
Theorem sign_message_raises_only_sign_failed
    (msg : message) (b : bytes) (s : state) (e : exn) :
  canonical_bytes msg = Ok b ->
  fst (sign_message msg s) = Raise e <->
  exists e0,
    raised_in_sign_message (wallet s) b e0 /\
    e = if is_Exception (exn_cls e0)
        then Exn ValueError ("Failed to sign message: " +:+ exn_msg e0) (Some e0)
        else e0.
Proof.
  intros Hb. unfold raised_in_sign_message.
  destruct (wclass (wallet s)) as [| |ty] eqn:Hc.
  - rewrite (sign_message_hot msg b s Hc Hb).
    unfold signature_or_failure, reraised, sign_failed.
    destruct (account_sign_message (encode_defunct b)) as [sig|e1]; simpl; split.
    + discriminate.
    + intros (e0 & [=] & _).
    + intros [= <-]. eauto.
    + intros (e0 & [= <-] & ->). reflexivity.
  - rewrite (sign_message_provider msg b s Hc Hb). simpl. split.
    + intros [= <-]. eexists. split; reflexivity.
    + intros (e0 & -> & ->). reflexivity.
  - rewrite (sign_message_other msg b ty s Hc Hb).
    unfold reraised, sign_failed.
    destruct (has_sign_message (wallet s)).
    + destruct (wallet_sign_message (encode_defunct b) (wallet s)) as [[sm|e1] w'];
        simpl; split.
      * discriminate.
      * intros (e0 & [=] & _).
      * intros [= <-]. eauto.
      * intros (e0 & [= <-] & ->). reflexivity.
    + simpl. split.
      * intros [= <-]. eexists. split; reflexivity.
      * intros (e0 & -> & ->). reflexivity.
Qed.

End SignMessageMore.

(** A hex string with a bad digit and a negative integer, on a
    [HotWallet]. *)
Lemma sign_message_bad_hex_and_negative :
  let s := Ref.a_state HotWallet (Some (Some 5)) Ref.tx_plain in
  let bad := Exn (OtherError "binascii.Error") "Non-hexadecimal digit found" None in
  sign_message (E := Ref.collaborators) (MStr "0xzz") s = (Raise bad, s) /\
  sign_message (E := Ref.collaborators) (MInt (-1)) s = (Raise bad, s).
Proof.
  intros s bad.
  destruct (sign_message_conversion_failure (E := Ref.collaborators) s)
    as (_ & Hhex & Hint).
  split; [apply Hhex|apply Hint]; reflexivity.
Defined.

(** A generic wallet without a [sign_message] method: the
    [NotImplementedError] of line 89 leaves as the cause of the
    [ValueError].  A [HotWallet] whose account is interrupted from the
    keyboard: the [KeyboardInterrupt] leaves as it is. *)
Lemma sign_message_raises_only_sign_failed_example :
  fst (sign_message (E := Ref.collaborators) (MStr "hi")
         {| wallet := Ref.bare_wallet (OtherWallet "<class 'Vault'>") None;
            request := Ref.tx_plain; calls := [] |})
    = Raise (Exn ValueError
               "Failed to sign message: Message signing not implemented for wallet type: <class 'Vault'>"
               (Some (Exn NotImplementedError
                        "Message signing not implemented for wallet type: <class 'Vault'>"
                        None))) /\
  fst (sign_message (E := Ref.interrupted) (MStr "hi")
         (Ref.a_state HotWallet (Some (Some 5)) Ref.tx_plain))
    = Raise (Exn (BaseOnly "KeyboardInterrupt") "" None).
Proof.
  split.
  - apply (proj2 (sign_message_raises_only_sign_failed (E := Ref.collaborators)
                    (MStr "hi") [x68; x69] _ _ eq_refl)).
    eexists. split; reflexivity.
  - apply (proj2 (sign_message_raises_only_sign_failed (E := Ref.interrupted)
                    (MStr "hi") [x68; x69] _ _ eq_refl)).
    eexists. split; reflexivity.
Defined.

(** ** What goes into the log of outside calls *)

Section Appends.

Context `{E : Collaborators}.
Variable P : event -> Prop.

Lemma appends_nothing {A} (c : M A) :
  (forall s, calls (snd (c s)) = calls s) -> appends P c.
Proof.
  intros Hc s. exists []. rewrite app_nil_r. split; [apply Hc|constructor].
Qed.

Lemma appends_ret {A} (a : A) : appends P (ret a).
Proof. apply appends_nothing. reflexivity. Qed.

Lemma appends_raise {A} (e : exn) : appends P (raise (A := A) e).
Proof. apply appends_nothing. reflexivity. Qed.

Lemma appends_lift {A} (r : result A) : appends P (lift r).
Proof. apply appends_nothing. reflexivity. Qed.

Lemma appends_get_wallet : appends P get_wallet.
Proof. apply appends_nothing. reflexivity. Qed.

Lemma appends_get_request : appends P get_request.
Proof. apply appends_nothing. reflexivity. Qed.

Lemma appends_put_request (tx : TxParams) : appends P (put_request tx).
Proof. apply appends_nothing. reflexivity. Qed.

Lemma appends_put_wallet (w : Wallet) : appends P (put_wallet w).
Proof. apply appends_nothing. reflexivity. Qed.

Lemma appends_emit (ev : event) : P ev -> appends P (emit ev).
Proof. intros Hev s. exists [ev]. split; [reflexivity|repeat constructor; exact Hev]. Qed.

Lemma appends_bind {A B} (c : M A) (k : A -> M B) :
  appends P c -> (forall a, appends P (k a)) -> appends P (bind c k).
Proof.
  intros Hc Hk s. unfold bind. destruct (Hc s) as (new1 & Hcalls1 & HP1).
  destruct (c s) as [[a|e] s1]; simpl in *; [|eauto].
  destruct (Hk a s1) as (new2 & Hcalls2 & HP2).
  exists (new1 ++ new2). rewrite Hcalls2, Hcalls1, app_assoc.
  split; [reflexivity|apply Forall_app; auto].
Qed.

Lemma appends_try_except {A} (c : M A) (h : exn -> M A) :
  appends P c -> (forall e, appends P (h e)) -> appends P (try_except c h).
Proof.
  intros Hc Hh s. unfold try_except. destruct (Hc s) as (new1 & Hcalls1 & HP1).
  destruct (c s) as [[a|e] s1]; simpl in *; [eauto|].
  destruct (is_Exception (exn_cls e)); [|eauto].
  destruct (Hh e s1) as (new2 & Hcalls2 & HP2).
  exists (new1 ++ new2). rewrite Hcalls2, Hcalls1, app_assoc.
  split; [reflexivity|apply Forall_app; auto].
Qed.

Lemma appends_py_add1 (v : value) : appends P (py_add1 v).
Proof. destruct v; apply appends_nothing; reflexivity. Qed.

Lemma appends_getitem (k : string) : appends P (getitem k).
Proof.
  apply appends_nothing. intros [w tx cs]. unfold getitem. run.
  destruct (tx !! k); reflexivity.
Qed.

Lemma appends_pop (k : string) : appends P (pop k).
Proof.
  apply appends_nothing. intros [w tx cs]. unfold pop. run.
  destruct (tx !! k); reflexivity.
Qed.

Lemma appends_setitem (k : string) (v : value) : appends P (setitem k v).
Proof. apply appends_nothing. intros [w tx cs]. reflexivity. Qed.

Lemma appends_getattr_current_nonce : appends P getattr_current_nonce.
Proof.
  apply appends_nothing. intros [w tx cs]. unfold getattr_current_nonce. run.
  destruct (current_nonce w); reflexivity.
Qed.

Lemma appends_setattr_current_nonce (n : Z) : appends P (setattr_current_nonce n).
Proof. apply appends_nothing. intros [w tx cs]. reflexivity. Qed.

Lemma appends_call_account_sign_message (m : SignableMessage) :
  P (AccountSignMessage m) -> appends P (call_account_sign_message m).
Proof.
  intros Hev. unfold call_account_sign_message.
  apply appends_bind; [apply appends_emit, Hev|intros _; apply appends_lift].
Qed.

Lemma appends_call_account_sign_transaction (tx : TxParams) :
  P (AccountSignTransaction tx) -> appends P (call_account_sign_transaction tx).
Proof.
  intros Hev. unfold call_account_sign_transaction.
  apply appends_bind; [apply appends_emit, Hev|intros _; apply appends_lift].
Qed.

Lemma appends_call_wallet_sign_message (m : SignableMessage) :
  P (WalletSignMessage m) -> appends P (call_wallet_sign_message m).
Proof.
  intros Hev. unfold call_wallet_sign_message.
  apply appends_bind; [apply appends_emit, Hev|intros _].
  apply appends_nothing. intros [w tx cs]. simpl.
  destruct (wallet_sign_message m w); reflexivity.
Qed.

Lemma appends_call_sign_transaction_with_new_nonce :
  (forall tx, P (WalletSignTransactionWithNewNonce tx)) ->
  appends P call_sign_transaction_with_new_nonce.
Proof.
  intros Hev. unfold call_sign_transaction_with_new_nonce.
  apply appends_bind; [apply appends_get_request|intros tx].
  apply appends_bind; [apply appends_emit, Hev|intros _].
  apply appends_nothing. intros [w tx0 cs]. simpl.
  destruct (sign_transaction_with_new_nonce tx w) as [[r w'] tx']; reflexivity.
Qed.

End Appends.

Create HintDb log.

#[export] Hint Resolve
  appends_ret appends_raise appends_lift appends_get_wallet
  appends_get_request appends_put_request appends_put_wallet appends_py_add1
  appends_getitem appends_pop appends_setitem appends_getattr_current_nonce
  appends_setattr_current_nonce appends_call_account_sign_message
  appends_call_account_sign_transaction appends_call_wallet_sign_message
  appends_call_sign_transaction_with_new_nonce
  : log.

(** Walk a computation as [mono] does, for the log. *)
Ltac walk_log :=
  repeat first
    [ solve [auto with log]
    | apply appends_bind; [|intros ?]
    | apply appends_try_except; [|intros ?]
    | match goal with
      | |- appends _ (match ?x with _ => _ end) => destruct x
      | |- appends _ (if ?b then _ else _) => destruct b
      end ].

Section SigningStaysLocal.

Context `{E : Collaborators}.

Lemma appends_sign_transaction :
  appends (fun ev => is_chain_call ev = false) sign_transaction.
Proof. unfold sign_transaction. walk_log. Qed.

Lemma appends_sign_message (msg : message) :
  appends (fun ev => is_chain_call ev = false) (sign_message msg).
Proof. unfold sign_message, signable_of. walk_log. Qed.

(** X3: signing never reaches the chain: whatever the wallet class, the
    input and the outcome, the outside calls [sign_message] and
    [sign_transaction] make go to the account or to the wallet, none to
    [web3.eth]; calls already made stay in front. *)
Theorem signing_makes_no_chain_call (s : state) :
  (forall msg, exists new,
      calls (snd (sign_message msg s)) = calls s ++ new /\
      Forall (fun ev => is_chain_call ev = false) new) /\
  (exists new,
      calls (snd (sign_transaction s)) = calls s ++ new /\
      Forall (fun ev => is_chain_call ev = false) new).
Proof.
  split.
  - intros msg. apply (appends_sign_message msg s).
  - apply (appends_sign_transaction s).
Qed.

End SigningStaysLocal.

(** ** Further properties of sign_transaction and send_transaction *)

Section SignAndSendMore.

Context `{E : Collaborators}.

(** X4: a [Web3ProviderWallet] cannot sign a transaction that carries a
    nonce but can send it: [sign_transaction] raises the
    [NotImplementedError] of line 122 as it is, with no outside call and no
    change of state, while [send_transaction] on the same request makes one
    call to [web3.eth.send_transaction], with the caller's nonce in the
    payload, and returns what that call returns. *)
Theorem provider_wallet_sends_what_it_cannot_sign (s : state) (v : value) :
  wclass (wallet s) = Web3ProviderWallet ->
  request s !! "nonce" = Some v ->
  sign_transaction s
    = (Raise (Exn NotImplementedError
                "Direct signing with nonce not supported for Web3ProviderWallet"
                None), s) /\
  send_transaction s
    = (eth_send_transaction (delete "from" (request s)),
       and_then s (EthSendTransaction (delete "from" (request s)))) /\
  delete "from" (request s) !! "nonce" = Some v.
Proof.
  intros Hc Hv. split; [|split].
  - unfold sign_transaction. destruct s as [w tx cs]; simpl in *.
    run with Hv Hc. reflexivity.
  - rewrite (send_transaction_provider s Hc). cbv zeta. rewrite Hv. reflexivity.
  - rewrite lookup_delete_ne by discriminate. exact Hv.
Qed.

(** X5: on a generic wallet the nonce is put back only if the wallet's
    method returns: when [sign_transaction_with_new_nonce] raises, its
    exception leaves [sign_transaction] as it is, and the caller's dict is
    the one the wallet's method was working on; if that method did not
    touch it, the dict has lost its ["nonce"] key and kept every other. *)
Theorem sign_transaction_other_failure_drops_nonce
    (s : state) (ty : string) (v : value) (e : exn) (w' : Wallet) (tx' : TxParams) :
  wclass (wallet s) = OtherWallet ty ->
  request s !! "nonce" = Some v ->
  sign_transaction_with_new_nonce (delete "nonce" (request s)) (wallet s)
    = (Raise e, w', tx') ->
  sign_transaction s
    = (Raise e,
       {| wallet := w'; request := tx';
          calls := calls s
                   ++ [WalletSignTransactionWithNewNonce (delete "nonce" (request s))] |}) /\
  (tx' = delete "nonce" (request s) ->
   request (snd (sign_transaction s)) !! "nonce" = None /\
   forall k, k <> "nonce" ->
             request (snd (sign_transaction s)) !! k = request s !! k).
Proof.
  intros Hc Hv Hcall.
  rewrite (sign_transaction_other s ty v Hc Hv). cbv zeta. rewrite Hcall.
  split; [reflexivity|]. simpl. intros ->.
  split; [apply lookup_delete_eq|].
  intros k Hk. apply lookup_delete_ne. congruence.
Qed.

(** X6: without a nonce in the request the adapter only delegates, on every
    wallet class: result, wallet object and dict are exactly what the
    wallet's [sign_transaction_with_new_nonce] returned and left, that call
    is the only outside call, and the adapter itself writes nothing, the
    account of a [HotWallet] is not called and [current_nonce] is not
    reconciled. *)
Theorem sign_transaction_without_nonce_delegates (s : state) :
  request s !! "nonce" = None ->
  sign_transaction s =
    let '(res, w', tx') := sign_transaction_with_new_nonce (request s) (wallet s) in
    (res, {| wallet := w'; request := tx';
             calls := calls s ++ [WalletSignTransactionWithNewNonce (request s)] |}).
Proof.
  intros Hv. unfold sign_transaction. destruct s as [w tx cs]; simpl in *.
  run with Hv Hv. reflexivity.
Qed.

(** X7: explicit nonces signed out of order on a [HotWallet] leave the same
    [current_nonce] as in order: after signing a request with nonce [n1]
    and one with nonce [n2], in either order, [current_nonce] is the larger
    of its old value and [max(n1, n2) + 1]. *)
Theorem sign_transaction_hot_wallet_order_independent
    (s : state) (tx1 tx2 : TxParams) (n1 n2 cur : Z) (r1 r2 : SignedTx) :
  wclass (wallet s) = HotWallet ->
  current_nonce (wallet s) = Some (Some cur) ->
  tx1 !! "nonce" = Some (VInt n1) ->
  tx2 !! "nonce" = Some (VInt n2) ->
  account_sign_transaction tx1 = Ok r1 ->
  account_sign_transaction tx2 = Ok r2 ->
  let s12 := snd (with_request tx2 sign_transaction
                    (snd (with_request tx1 sign_transaction s))) in
  let s21 := snd (with_request tx1 sign_transaction
                    (snd (with_request tx2 sign_transaction s))) in
  current_nonce (wallet s12) = Some (Some (Z.max (Z.max n1 n2 + 1) cur)) /\
  current_nonce (wallet s21) = current_nonce (wallet s12).
Proof.
  intros Hc Hn H1 H2 Hr1 Hr2.
  assert (forall tx n cur0 r (s0 : state),
             wclass (wallet s0) = HotWallet ->
             current_nonce (wallet s0) = Some (Some cur0) ->
             tx !! "nonce" = Some (VInt n) ->
             account_sign_transaction tx = Ok r ->
             wclass (wallet (snd (with_request tx sign_transaction s0))) = HotWallet /\
             current_nonce (wallet (snd (with_request tx sign_transaction s0)))
               = Some (Some (Z.max (n + 1) cur0))) as Hstep.
  { intros tx n cur0 r s0 Hc0 Hn0 Htx Hr. unfold with_request.
    rewrite (sign_transaction_hot_set
               {| wallet := wallet s0; request := tx; calls := calls s0 |}
               (VInt n) cur0 Hc0 Hn0 Htx).
    simpl. rewrite Hr. simpl. auto. }
  destruct (Hstep tx1 n1 cur r1 s Hc Hn H1 Hr1) as [Hc1 Hn1].
  destruct (Hstep tx2 n2 cur r2 s Hc Hn H2 Hr2) as [Hc2 Hn2].
  destruct (Hstep tx2 n2 _ r2 _ Hc1 Hn1 H2 Hr2) as [_ Hn12].
  destruct (Hstep tx1 n1 _ r1 _ Hc2 Hn2 H1 Hr1) as [_ Hn21].
  cbv zeta. rewrite Hn12, Hn21. split; do 2 f_equal; lia.
Qed.

(** X8: a send that fails after the signature does not give the nonce
    back: on a [HotWallet] with a tracked [current_nonce], once the account
    has signed the request with explicit nonce [n], [current_nonce] is
    [max(n + 1, current_nonce)] after [send_transaction], whether the raw
    bytes could be extracted and whether the chain client accepted them;
    and when the chain client raises, the call fails with the wrapping
    [ValueError] (with the chain client's exception itself if that one
    does not derive from [Exception]). *)
Theorem send_transaction_hot_wallet_consumes_nonce
    (s : state) (n cur : Z) (r : SignedTx) :
  wclass (wallet s) = HotWallet ->
  current_nonce (wallet s) = Some (Some cur) ->
  request s !! "nonce" = Some (VInt n) ->
  account_sign_transaction (request s) = Ok r ->
  current_nonce (wallet (snd (send_transaction s)))
    = Some (Some (Z.max (n + 1) cur)) /\
  (forall raw e,
      extract_raw r = Ok raw ->
      eth_send_raw_transaction raw = Raise e ->
      fst (send_transaction s)
        = Raise (if is_Exception (exn_cls e) then send_failed e else e)).
Proof.
  intros Hc Hn Hv Hr.
  assert (wclass (wallet s) <> Web3ProviderWallet) as Hnp by congruence.
  rewrite (send_transaction_signing s Hnp).
  rewrite (sign_transaction_hot_set s (VInt n) cur Hc Hn Hv), Hr.
  split.
  - destruct (extract_raw r) as [raw|e]; reflexivity.
  - intros raw e -> ->. reflexivity.
Qed.

(** X9: nothing unsigned is ever submitted: on every wallet class but
    [Web3ProviderWallet], [send_transaction] makes no call to
    [web3.eth.send_transaction], and makes a call to
    [web3.eth.send_raw_transaction] only when [sign_transaction] has
    returned an object whose raw bytes could be extracted, then exactly
    one, after all signing calls, with those bytes; when signing or
    extraction fails the chain client is not called at all. *)
Theorem send_transaction_submits_only_signed_bytes (s : state) :
  wclass (wallet s) <> Web3ProviderWallet ->
  exists signing sent,
    calls (snd (send_transaction s)) = calls s ++ signing ++ sent /\
    Forall (fun ev => is_chain_call ev = false) signing /\
    match fst (sign_transaction s) with
    | Ok signed_tx =>
        match extract_raw signed_tx with
        | Ok raw => sent = [EthSendRawTransaction raw]
        | Raise _ => sent = []
        end
    | Raise _ => sent = []
    end.
Proof.
  intros Hc. rewrite (send_transaction_signing s Hc).
  destruct (appends_sign_transaction s) as (signing & Hcalls & Hlocal).
  exists signing.
  destruct (sign_transaction s) as [[signed_tx|e] s1]; simpl in *.
  - destruct (extract_raw signed_tx) as [raw|e]; simpl.
    + exists [EthSendRawTransaction raw]. rewrite Hcalls, app_assoc. auto.
    + exists []. rewrite Hcalls, app_nil_r. auto.
  - exists []. rewrite Hcalls, app_nil_r. auto.
Qed.

End SignAndSendMore.

(** A provider wallet handed a request with nonce 10. *)
Lemma provider_wallet_sends_nonce_10 :
  let s := Ref.a_state Web3ProviderWallet (Some (Some 5)) (Ref.tx_nonce 10) in
  exn_cls (match fst (sign_transaction (E := Ref.collaborators) s) with
           | Raise e => e
           | Ok _ => Exn ValueError "" None
           end) = NotImplementedError /\
  fst (send_transaction (E := Ref.collaborators) s) = Ok [xaa] /\
  delete "from" (Ref.tx_nonce 10) !! "nonce" = Some (VInt 10).
Proof.
  intros s.
  destruct (provider_wallet_sends_what_it_cannot_sign (E := Ref.collaborators)
              s (VInt 10) eq_refl eq_refl) as (Hsign & Hsend & Hnonce).
  rewrite Hsign, Hsend. split; [reflexivity|split; [reflexivity|exact Hnonce]].
Defined.

(** A generic wallet whose nonce is not synced refuses to sign: the
    caller's dict comes back without the nonce 3 it went in with. *)
Lemma sign_transaction_other_failure_drops_3 :
  let s := Ref.a_state (OtherWallet "<class 'Vault'>") None (Ref.tx_nonce 3) in
  Ref.tx_nonce 3 !! "nonce" = Some (VInt 3) /\
  request (snd (sign_transaction (E := Ref.collaborators) s)) !! "nonce" = None.
Proof.
  intros s. split; [reflexivity|].
  apply (sign_transaction_other_failure_drops_nonce (E := Ref.collaborators)
           s "<class 'Vault'>" (VInt 3)
           (Exn (OtherError "AssertionError")
              "Nonce is not yet synced from the blockchain" None)
           (wallet s) (delete "nonce" (Ref.tx_nonce 3))
           eq_refl eq_refl eq_refl).
  reflexivity.
Defined.

(** A [HotWallet] at nonce 5 and a request without nonce: the wallet's
    method allocates 5 and moves on to 6. *)
Lemma sign_transaction_without_nonce_example :
  let s := Ref.a_state HotWallet (Some (Some 5)) Ref.tx_plain in
  sign_transaction (E := Ref.collaborators) s
    = (Ok (Ref.signed_with "rawTransaction" 5),
       {| wallet := Ref.a_wallet HotWallet (Some (Some 6));
          request := <["nonce" := VInt 5]> Ref.tx_plain;
          calls := [WalletSignTransactionWithNewNonce Ref.tx_plain] |}).
Proof.
  intros s.
  rewrite (sign_transaction_without_nonce_delegates (E := Ref.collaborators)
             s eq_refl).
  reflexivity.
Defined.

(** Nonces 10 and 7 on a wallet at 5: 11 in either order. *)
Lemma sign_transaction_10_then_7 :
  let s := Ref.a_state HotWallet (Some (Some 5)) Ref.tx_plain in
  current_nonce
    (wallet (snd (with_request (Ref.tx_nonce 7) (sign_transaction (E := Ref.collaborators))
                    (snd (with_request (Ref.tx_nonce 10)
                            (sign_transaction (E := Ref.collaborators)) s)))))
    = Some (Some 11) /\
  current_nonce
    (wallet (snd (with_request (Ref.tx_nonce 10) (sign_transaction (E := Ref.collaborators))
                    (snd (with_request (Ref.tx_nonce 7)
                            (sign_transaction (E := Ref.collaborators)) s)))))
    = Some (Some 11).
Proof.
  intros s.
  destruct (sign_transaction_hot_wallet_order_independent (E := Ref.collaborators)
              s (Ref.tx_nonce 10) (Ref.tx_nonce 7) 10 7 5
              (Ref.signed_with "raw_transaction" 10)
              (Ref.signed_with "raw_transaction" 7)
              eq_refl eq_refl eq_refl eq_refl eq_refl eq_refl) as [H12 H21].
  split; [exact H12|]. rewrite H21. exact H12.
Defined.

(** The chain client is down: the send fails, the wallet is at 11. *)
Lemma send_transaction_offline_consumes_nonce :
  let s := Ref.a_state HotWallet (Some (Some 5)) (Ref.tx_nonce 10) in
  current_nonce (wallet (snd (send_transaction (E := Ref.offline) s)))
    = Some (Some 11) /\
  fst (send_transaction (E := Ref.offline) s)
    = Raise (send_failed
               (Exn (OtherError "ConnectionError") "connection refused" None)).
Proof.
  intros s.
  destruct (send_transaction_hot_wallet_consumes_nonce (E := Ref.offline)
              s 10 5 (Ref.signed_with "raw_transaction" 10)
              eq_refl eq_refl eq_refl eq_refl) as [Hnonce Hfail].
  split; [exact Hnonce|].
  exact (Hfail (x02 :: Ref.be_bytes 32 10 [])
           (Exn (OtherError "ConnectionError") "connection refused" None)
           eq_refl eq_refl).
Defined.

(** A [HotWallet] sending with nonce 10: one signing call, then one raw
    submission. *)
Lemma send_transaction_submits_only_signed_bytes_example :
  let s := Ref.a_state HotWallet (Some (Some 5)) (Ref.tx_nonce 10) in
  exists signing,
    calls (snd (send_transaction (E := Ref.collaborators) s))
      = signing ++ [EthSendRawTransaction (x02 :: Ref.be_bytes 32 10 [])] /\
    Forall (fun ev => is_chain_call ev = false) signing.
Proof.
  intros s.
  assert (wclass (wallet s) <> Web3ProviderWallet) as Hc by discriminate.
  destruct (send_transaction_submits_only_signed_bytes (E := Ref.collaborators) s Hc)
    as (signing & sent & Hcalls & Hlocal & Hsent).
  exists signing. split; [|exact Hlocal].
  rewrite Hcalls. simpl in Hsent. rewrite Hsent. reflexivity.
Defined.

(** The chain client is down behind a [HotWallet]: the caller sees the
    [ValueError] with the [ConnectionError] as its cause.  The submission
    is interrupted from the keyboard: the caller sees the
    [KeyboardInterrupt]. *)
Lemma send_transaction_signing_wraps_example :
  fst (send_transaction (E := Ref.offline)
         (Ref.a_state HotWallet (Some (Some 5)) (Ref.tx_nonce 10)))
    = Raise (Exn ValueError "Failed to send transaction: connection refused"
               (Some (Exn (OtherError "ConnectionError") "connection refused" None))) /\
  fst (send_transaction (E := Ref.interrupted)
         (Ref.a_state HotWallet (Some (Some 5)) (Ref.tx_nonce 10)))
    = Raise (Exn (BaseOnly "KeyboardInterrupt") "" None).
Proof.
  assert (wclass (wallet (Ref.a_state HotWallet (Some (Some 5)) (Ref.tx_nonce 10)))
          <> Web3ProviderWallet) as Hc by discriminate.
  split.
  - apply (proj2 (send_transaction_signing_wraps (E := Ref.offline) _ _ Hc)).
    exists (Exn (OtherError "ConnectionError") "connection refused" None).
    split; reflexivity.
  - apply (proj2 (send_transaction_signing_wraps (E := Ref.interrupted) _ _ Hc)).
    exists (Exn (BaseOnly "KeyboardInterrupt") "" None).
    split; reflexivity.
Defined.

(** ** override_storage_slot: the value that is written *)

Section StorageValue.

Import Debug.

Lemma length_append (a b : string) :
  String.length (a +:+ b) = (String.length a + String.length b)%nat.
Proof. induction a as [|c a IH]; simpl; [reflexivity|]. rewrite IH. reflexivity. Qed.

Lemma prefix_0x_append (s : string) : String.prefix "0x" ("0x" +:+ s) = true.
Proof. destruct s; reflexivity. Qed.

Lemma length_zeros (k : nat) : String.length (zeros k) = k.
Proof. induction k as [|k IH]; simpl; [reflexivity|]. rewrite IH. reflexivity. Qed.

Lemma hex_val_hex_char (d : N) : (d < 16)%N -> hex_val (hex_char d) = Some d.
Proof.
  intros Hd.
  assert (d = 0 \/ d = 1 \/ d = 2 \/ d = 3 \/ d = 4 \/ d = 5 \/ d = 6 \/ d = 7 \/
          d = 8 \/ d = 9 \/ d = 10 \/ d = 11 \/ d = 12 \/ d = 13 \/ d = 14 \/
          d = 15)%N as Hcases by lia.
  repeat (destruct Hcases as [->|Hcases]; [reflexivity|]). subst d. reflexivity.
Qed.

(** Reading the digits of [n] written in front of [acc] is reading [acc]
    with [n] already read. *)
Lemma int_of_hex_from_hex_digits (fuel : nat) :
  forall (n : N) (acc : string),
    (n < 2 ^ N.of_nat fuel)%N ->
    int_of_hex_from 0 (hex_digits fuel n acc) = int_of_hex_from n acc.
Proof.
  induction fuel as [|fuel IH]; intros n acc Hn.
  - simpl in *. f_equal. lia.
  - simpl. destruct (N.eqb_spec n 0) as [->|Hnz]; [reflexivity|].
    rewrite IH.
    + simpl. rewrite hex_val_hex_char by (apply N.mod_lt; lia).
      f_equal. pose proof (N.div_mod n 16). lia.
    + rewrite Nat2N.inj_succ, N.pow_succ_r' in Hn.
      apply N.Div0.div_lt_upper_bound. lia.
Qed.

Lemma int_of_hex_from_hex_of_N (n : N) :
  int_of_hex_from 0 (hex_of_N n) = Some n.
Proof.
  unfold hex_of_N. destruct (N.eqb_spec n 0) as [->|Hnz]; [reflexivity|].
  rewrite int_of_hex_from_hex_digits; [reflexivity|].
  rewrite Nat2N.inj_succ, N2Nat.id. apply N.log2_spec. lia.
Qed.

Lemma int_of_hex_from_zeros (k : nat) (s : string) :
  int_of_hex_from 0 (zeros k +:+ s) = int_of_hex_from 0 s.
Proof. induction k as [|k IH]; simpl; [reflexivity|exact IH]. Qed.

(** A string of [k] hex digits reads as a number below [16 ^ k]. *)
Lemma int_of_hex_from_bound (s : string) :
  forall (acc v : N),
    int_of_hex_from acc s = Some v ->
    (v < (acc + 1) * 16 ^ N.of_nat (String.length s))%N.
Proof.
  induction s as [|c s IH]; intros acc v Hv; simpl in Hv.
  - injection Hv as <-. simpl. lia.
  - destruct (hex_val c) as [d|] eqn:Hd; [|discriminate].
    assert (d < 16)%N as Hd16.
    { unfold hex_val in Hd. cbv zeta in Hd.
      destruct (N.leb_spec 48 (N_of_ascii c)), (N.leb_spec (N_of_ascii c) 57),
        (N.leb_spec 97 (N_of_ascii c)), (N.leb_spec (N_of_ascii c) 102),
        (N.leb_spec 65 (N_of_ascii c)), (N.leb_spec (N_of_ascii c) 70);
        simpl in Hd; try discriminate; injection Hd as <-; lia. }
    specialize (IH _ _ Hv). simpl String.length.
    rewrite Nat2N.inj_succ, N.pow_succ_r'. nia.
Qed.

Lemma hex_val_not_sign (c : ascii) (d : N) :
  hex_val c = Some d -> ((c =? "+")%char || (c =? "-")%char) = false.
Proof.
  intros Hd.
  destruct (Ascii.eqb_spec c "+") as [->|_]; [discriminate|].
  destruct (Ascii.eqb_spec c "-") as [->|_]; [discriminate|]. reflexivity.
Qed.

Lemma length_zfill (width : nat) (s : string) :
  String.length (zfill width s) = Nat.max width (String.length s).
Proof.
  unfold zfill. destruct (Nat.leb_spec width (String.length s)) as [Hle|Hlt]; [lia|].
  destruct s as [|c rest]; simpl.
  - rewrite length_zeros. lia.
  - destruct ((c =? "+")%char || (c =? "-")%char); simpl;
      rewrite length_append, length_zeros; simpl in *; lia.
Qed.

Lemma int_of_hex_from_zfill (width : nat) (s : string) (v : N) :
  int_of_hex_from 0 s = Some v -> int_of_hex_from 0 (zfill width s) = Some v.
Proof.
  intros Hv. unfold zfill. destruct (width <=? String.length s)%nat; [exact Hv|].
  destruct s as [|c rest].
  - cbv zeta. rewrite <- Hv.
    induction (width - String.length "")%nat as [|k IH]; [reflexivity|exact IH].
  - cbv zeta. destruct (hex_val c) as [d|] eqn:Hd.
    + rewrite (hex_val_not_sign c d Hd), int_of_hex_from_zeros. exact Hv.
    + simpl in Hv. rewrite Hd in Hv. discriminate.
Qed.

Lemma int_of_hex_nonempty (s : string) (v : N) :
  s <> EmptyString -> int_of_hex_from 0 s = Some v -> int_of_hex s = Some v.
Proof. destruct s; [congruence|]. intros _ Hv. exact Hv. Qed.

(** For a value that is not negative, [padded_hex_value] is ["0x"] and then
    digits that read back as the value: 64 of them if the value is below
    [16 ^ 64], more if it is not. *)
Lemma padded_hex_value_nonneg (value : Z) :
  0 <= value ->
  String.prefix "0x" (padded_hex_value value) = true /\
  int_of_hex (slice_from 2 (padded_hex_value value)) = Some (Z.to_N value) /\
  (value < 16 ^ 64 -> String.length (padded_hex_value value) = 66%nat) /\
  (16 ^ 64 <= value -> (66 < String.length (padded_hex_value value))%nat).
Proof.
  intros Hv. unfold padded_hex_value, py_hex.
  destruct (Z.ltb_spec value 0) as [?|_]; [lia|].
  change (slice_from 2 ("0x" +:+ hex_of_N (Z.to_N value))) with (hex_of_N (Z.to_N value)).
  change (slice_from 2 ("0x" +:+ ?s)) with s. cbv zeta.
  pose proof (int_of_hex_from_hex_of_N (Z.to_N value)) as Hdigits.
  pose proof (int_of_hex_from_zfill 64 _ _ Hdigits) as Hread.
  pose proof (int_of_hex_from_bound _ _ _ Hdigits) as Hshort.
  pose proof (int_of_hex_from_bound _ _ _ Hread) as Hlong.
  pose proof (length_zfill 64 (hex_of_N (Z.to_N value))) as Hlen.
  split; [apply prefix_0x_append|]. split; [|split].
  - apply int_of_hex_nonempty; [|exact Hread].
    intros Hempty. rewrite Hempty in Hlen. simpl in Hlen. lia.
  - intros Hsmall. rewrite length_append, Hlen.
    change (String.length "0x") with 2%nat.
    assert (String.length (hex_of_N (Z.to_N value)) <= 64)%nat; [|lia].
    destruct (Nat.leb_spec (String.length (hex_of_N (Z.to_N value))) 64) as [|Hmore];
      [assumption|exfalso].
    (* more than 64 digits without a leading zero: at least 16 ^ 64 *)
    unfold hex_of_N in Hmore.
    destruct (N.eqb_spec (Z.to_N value) 0) as [|Hnz]; [simpl in Hmore; lia|].
    revert Hmore. generalize (S (N.to_nat (N.log2 (Z.to_N value)))).
    assert (forall fuel n acc,
               (n < 16 ^ N.of_nat (64 - String.length acc))%N ->
               (String.length acc <= 64)%nat ->
               (String.length (hex_digits fuel n acc) <= 64)%nat) as Hdig.
    { induction fuel as [|fuel IH]; intros n acc Hn Hacc; simpl; [exact Hacc|].
      destruct (N.eqb_spec n 0) as [|Hn0]; [exact Hacc|].
      assert (String.length acc < 64)%nat as Hroom.
      { destruct (Nat.ltb_spec (String.length acc) 64) as [|Hfull]; [assumption|].
        replace (64 - String.length acc)%nat with 0%nat in Hn by lia.
        simpl in Hn. lia. }
      apply IH; simpl; [|lia].
      replace (64 - String.length acc)%nat
        with (S (64 - S (String.length acc)))%nat in Hn by lia.
      rewrite Nat2N.inj_succ, N.pow_succ_r' in Hn.
      apply N.Div0.div_lt_upper_bound. exact Hn. }
    intros fuel Hmore.
    assert (String.length (hex_digits fuel (Z.to_N value) "") <= 64)%nat; [|lia].
    apply Hdig; simpl; [|lia].
    change (16 ^ 64)%N with (Z.to_N (16 ^ 64)). lia.
  - intros Hbig. rewrite length_append.
    change (String.length "0x") with 2%nat.
    destruct (Nat.ltb_spec 64 (String.length (zfill 64 (hex_of_N (Z.to_N value)))))
      as [|Hfew]; [lia|exfalso].
    assert (Z.to_N value < 16 ^ 64)%N; [|change (16 ^ 64)%N with (Z.to_N (16 ^ 64)) in *; lia].
    eapply N.lt_le_trans; [exact Hlong|].
    rewrite N.mul_1_l. apply N.pow_le_mono_r; lia.
Qed.

(** For a negative value the sign is cut off with the ["0"] of ["-0x"]: an
    ["x"] is left among the digits. *)
Lemma padded_hex_value_negative (value : Z) :
  value < 0 ->
  int_of_hex (slice_from 2 (padded_hex_value value)) = None.
Proof.
  intros Hv. unfold padded_hex_value, py_hex.
  destruct (Z.ltb_spec value 0) as [_|?]; [|lia].
  change (slice_from 2 ("-0x" +:+ ?s)) with (String "x" s).
  change (slice_from 2 ("0x" +:+ ?s)) with s. cbv zeta.
  set (digits := hex_of_N (Z.to_N (- value))).
  assert (int_of_hex_from 0 (zfill 64 (String "x" digits)) = None) as Hbad.
  { unfold zfill. destruct (64 <=? String.length (String "x" digits))%nat;
      [reflexivity|].
    cbv zeta. change (("x" =? "+")%char || ("x" =? "-")%char) with false.
    cbv iota. rewrite int_of_hex_from_zeros. reflexivity. }
  destruct (zfill 64 (String "x" digits)); [reflexivity|exact Hbad].
Qed.

End StorageValue.

(** ** override_storage_slot: the run *)

Section StorageRun.

Import Debug.

Variable web3 : Web3.

(** A connected run, step by step. *)
Lemma override_storage_slot_connected (contract_address slot : string) (value : Z) :
  is_connected web3 = true ->
  override_storage_slot web3 contract_address slot value =
    let p := padded_hex_value value in
    let sl := with_0x slot in
    let ask := ToChecksumAddress (with_0x contract_address) in
    match to_checksum_address web3 (with_0x contract_address) with
    | Raise e => (Raise e, [IsConnected; ask])
    | Ok a =>
        let write := MakeRequest "tenderly_setStorageAt" [a; sl; p] in
        match make_request web3 "tenderly_setStorageAt" [a; sl; p] with
        | Raise e => (Raise e, [IsConnected; ask; write])
        | Ok response =>
            match response !! "error" with
            | Some err =>
                (Raise (Exn (OtherError "Exception")
                          ("Error setting storage: " +:+ err) None),
                 [IsConnected; ask; write])
            | None =>
                let said := Print ("Successfully set storage at slot " +:+ sl
                                   +:+ " to " +:+ p) in
                match get_storage_at web3 a sl with
                | Raise e => (Raise e, [IsConnected; ask; write; said; GetStorageAt a sl])
                | Ok v =>
                    (Ok response,
                     [IsConnected; ask; write; said; GetStorageAt a sl;
                      Print ("Verified value: " +:+ HexBytes_hex web3 v)])
                end
            end
        end
    end.
Proof.
  intros Hup. unfold override_storage_slot, rbind, act, rret, rraise.
  rewrite Hup. cbv zeta. simpl negb. cbv iota.
  destruct (to_checksum_address web3 (with_0x contract_address)) as [a|e];
    [|reflexivity].
  destruct (make_request web3 "tenderly_setStorageAt" _) as [response|e];
    [|reflexivity].
  destruct (response !! "error") as [err|]; [reflexivity|].
  destruct (get_storage_at web3 a (with_0x slot)) as [v|e]; reflexivity.
Qed.

(** X12: the value is written whole.  For a value that is not negative,
    on a connected node that accepts the address, the third parameter of
    the [tenderly_setStorageAt] request is ["0x"] followed by hex digits
    that read back as the value: 64 digits, 66 characters in all, for a
    value below [16 ^ 64]; more, nothing being cut off, for a larger
    one. *)
Theorem override_storage_slot_writes_value
    (contract_address slot a : string) (value : Z) :
  is_connected web3 = true ->
  to_checksum_address web3 (with_0x contract_address) = Ok a ->
  0 <= value ->
  exists p,
    In (MakeRequest "tenderly_setStorageAt" [a; with_0x slot; p])
       (snd (override_storage_slot web3 contract_address slot value)) /\
    String.prefix "0x" p = true /\
    int_of_hex (slice_from 2 p) = Some (Z.to_N value) /\
    (value < 16 ^ 64 -> String.length p = 66%nat) /\
    (16 ^ 64 <= value -> (66 < String.length p)%nat).
Proof.
  intros Hup Ha Hv. exists (padded_hex_value value).
  split; [|apply padded_hex_value_nonneg, Hv].
  rewrite (override_storage_slot_connected _ _ _ Hup), Ha. cbv zeta.
  destruct (make_request web3 _ _) as [response|e]; [|simpl; auto].
  destruct (response !! "error"); [simpl; auto|].
  destruct (get_storage_at web3 a (with_0x slot)); simpl; auto.
Qed.

(** X13: a negative value is not refused: the request goes out all the
    same, and its third parameter is not a hex number, the slice
    [hex(value)[2:]] having cut the sign and kept the ["x"]. *)
Theorem override_storage_slot_negative_value
    (contract_address slot a : string) (value : Z) :
  is_connected web3 = true ->
  to_checksum_address web3 (with_0x contract_address) = Ok a ->
  value < 0 ->
  exists p,
    In (MakeRequest "tenderly_setStorageAt" [a; with_0x slot; p])
       (snd (override_storage_slot web3 contract_address slot value)) /\
    int_of_hex (slice_from 2 p) = None.
Proof.
  intros Hup Ha Hv. exists (padded_hex_value value).
  split; [|apply padded_hex_value_negative, Hv].
  rewrite (override_storage_slot_connected _ _ _ Hup), Ha. cbv zeta.
  destruct (make_request web3 _ _) as [response|e]; [|simpl; auto].
  destruct (response !! "error"); [simpl; auto|].
  destruct (get_storage_at web3 a (with_0x slot)); simpl; auto.
Qed.

(** X14: how a run can end.  Without a connection the function raises
    before anything is asked of the node.  A response with an ["error"]
    field makes it raise with that error, after the one request and
    without reading the slot back.  When it returns, it returns the node's
    response to the request, which has no ["error"] field, and it has read
    back the slot it wrote, at the address it wrote to. *)
Theorem override_storage_slot_outcomes
    (contract_address slot : string) (value : Z) :
  (is_connected web3 = false ->
   override_storage_slot web3 contract_address slot value
     = (Raise (Exn (OtherError "Exception")
                 ("Could not connect to Anvil node at " +:+ endpoint_uri web3) None),
        [IsConnected])) /\
  (forall a response err,
      is_connected web3 = true ->
      to_checksum_address web3 (with_0x contract_address) = Ok a ->
      make_request web3 "tenderly_setStorageAt"
        [a; with_0x slot; padded_hex_value value] = Ok response ->
      response !! "error" = Some err ->
      override_storage_slot web3 contract_address slot value
        = (Raise (Exn (OtherError "Exception") ("Error setting storage: " +:+ err) None),
           [IsConnected; ToChecksumAddress (with_0x contract_address);
            MakeRequest "tenderly_setStorageAt"
              [a; with_0x slot; padded_hex_value value]])) /\
  (forall response,
      fst (override_storage_slot web3 contract_address slot value) = Ok response ->
      exists a,
        to_checksum_address web3 (with_0x contract_address) = Ok a /\
        make_request web3 "tenderly_setStorageAt"
          [a; with_0x slot; padded_hex_value value] = Ok response /\
        response !! "error" = None /\
        In (GetStorageAt a (with_0x slot))
           (snd (override_storage_slot web3 contract_address slot value))).
Proof.
  split; [|split].
  - intros Hdown. unfold override_storage_slot, rbind, act, rraise.
    rewrite Hdown. reflexivity.
  - intros a response err Hup Ha Hreq Herr.
    rewrite (override_storage_slot_connected _ _ _ Hup), Ha. cbv zeta.
    rewrite Hreq, Herr. reflexivity.
  - intros response.
    destruct (is_connected web3) eqn:Hup.
    + rewrite (override_storage_slot_connected _ _ _ Hup). cbv zeta.
      destruct (to_checksum_address web3 (with_0x contract_address)) as [a|e];
        [|discriminate].
      destruct (make_request web3 _ _) as [response'|e] eqn:Hreq; [|discriminate].
      destruct (response' !! "error") as [err|] eqn:Herr; [discriminate|].
      destruct (get_storage_at web3 a (with_0x slot)) as [v|e]; [|discriminate].
      simpl. intros [= ->]. exists a. repeat split; auto 10.
    + unfold override_storage_slot, rbind, act, rraise.
      rewrite Hup. discriminate.
Qed.

(** X15: the ["0x"] prefix is optional on both string arguments: a slot
    and an address given without it lead to the very run they lead to
    when given with it. *)
Theorem override_storage_slot_prefix_optional
    (contract_address slot : string) (value : Z) :
  String.prefix "0x" contract_address = false ->
  String.prefix "0x" slot = false ->
  override_storage_slot web3 ("0x" +:+ contract_address) ("0x" +:+ slot) value
    = override_storage_slot web3 contract_address slot value.
Proof.
  intros Ha Hs. unfold override_storage_slot, with_0x.
  rewrite !prefix_0x_append, Ha, Hs. reflexivity.
Qed.

End StorageRun.

(** The default slot and value of the function, on a node that answers
    with an empty response. *)
Lemma override_storage_slot_default_value :
  exists p,
    In (Debug.MakeRequest "tenderly_setStorageAt"
          ["0x918b60ba71badfada72ef3a6c6f71d0c41d4785c";
           "0x636d2c90aa7802b40e3b1937e91c5450211eefbc7d3e39192aeb14ee03e3a958";
           p])
       (snd (Debug.override_storage_slot (Debug.a_node true ∅)
               "918b60ba71badfada72ef3a6c6f71d0c41d4785c"
               "636d2c90aa7802b40e3b1937e91c5450211eefbc7d3e39192aeb14ee03e3a958"
               171323136489203020000000)) /\
    Debug.int_of_hex (Debug.slice_from 2 p) = Some 171323136489203020000000%N /\
    String.length p = 66%nat.
Proof.
  destruct (override_storage_slot_writes_value (Debug.a_node true ∅)
              "918b60ba71badfada72ef3a6c6f71d0c41d4785c"
              "636d2c90aa7802b40e3b1937e91c5450211eefbc7d3e39192aeb14ee03e3a958"
              "0x918b60ba71badfada72ef3a6c6f71d0c41d4785c"
              171323136489203020000000 eq_refl eq_refl)
    as (p & Hin & _ & Hread & Hlen & _); [lia|].
  exists p. split; [exact Hin|]. split; [exact Hread|]. apply Hlen. lia.
Defined.

(** Minus five. *)
Lemma override_storage_slot_minus_five :
  exists p,
    In (Debug.MakeRequest "tenderly_setStorageAt" ["0xab"; "0x12"; p])
       (snd (Debug.override_storage_slot (Debug.a_node true ∅) "ab" "12" (-5))) /\
    Debug.int_of_hex (Debug.slice_from 2 p) = None.
Proof.
  apply (override_storage_slot_negative_value (Debug.a_node true ∅)
           "ab" "12" "0xab" (-5) eq_refl eq_refl).
  lia.
Defined.

(** A node that is down, a node that answers with an error, a node that
    answers well. *)
Lemma override_storage_slot_outcomes_examples :
  snd (Debug.override_storage_slot (Debug.a_node false ∅) "ab" "12" 5)
    = [Debug.IsConnected] /\
  fst (Debug.override_storage_slot (Debug.a_node true {["error" := "boom"]}) "ab" "12" 5)
    = Raise (Exn (OtherError "Exception") "Error setting storage: boom" None) /\
  In (Debug.GetStorageAt "0xab" "0x12")
     (snd (Debug.override_storage_slot (Debug.a_node true {["result" := "0x1"]})
             "ab" "12" 5)).
Proof.
  split; [|split].
  - rewrite (proj1 (override_storage_slot_outcomes (Debug.a_node false ∅) "ab" "12" 5)
               eq_refl).
    reflexivity.
  - assert (({["error" := "boom"]} : gmap string string) !! "error" = Some "boom")
      as Herr by reflexivity.
    rewrite (proj1 (proj2 (override_storage_slot_outcomes
                             (Debug.a_node true {["error" := "boom"]}) "ab" "12" 5))
               "0xab" {["error" := "boom"]} "boom" eq_refl eq_refl eq_refl Herr).
    reflexivity.
  - assert (fst (Debug.override_storage_slot (Debug.a_node true {["result" := "0x1"]})
                   "ab" "12" 5) = Ok {["result" := "0x1"]}) as Hrun by reflexivity.
    destruct (proj2 (proj2 (override_storage_slot_outcomes
                              (Debug.a_node true {["result" := "0x1"]}) "ab" "12" 5))
                {["result" := "0x1"]} Hrun) as (a & Ha & _ & _ & Hin).
    injection Ha as <-. exact Hin.
Defined.

(** With and without the prefix. *)
Lemma override_storage_slot_prefix_optional_example :
  Debug.override_storage_slot (Debug.a_node true ∅) "0xab" "0x12" 5
    = Debug.override_storage_slot (Debug.a_node true ∅) "ab" "12" 5.
Proof.
  exact (override_storage_slot_prefix_optional (Debug.a_node true ∅)
           "ab" "12" 5 eq_refl eq_refl).
Defined.
